(** * Kibana excerpt: config loader, theme hook and chart panel

    A shallow embedding of three TypeScript sources:
    - [readKibanaConfig] (the YAML + environment config reader),
    - [useIsDarkTheme] (kibana_theme/src/hooks.ts),
    - [Chart] (unified_histogram/public/chart/chart.tsx).

    JavaScript objects used as string-keyed maps are [gmap string _];
    exceptions are an explicit result type; React state is threaded
    explicitly and one update cycle (render, then effects) is a function. *)

From stdpp Require Import gmap strings list fin_maps pretty.

Set Warnings "-register-all,-clear-no-such-hyp".

(** ** JavaScript values *)

Module Js.

(** An IEEE double, as far as truthiness needs it.  A finite double is
    [m * 2^e]; both zeros are [Finite 0 _]. *)
Inductive JsNumber : Type :=
  | NaN
  | Infinity (negative : bool)
  | Finite (m e : Z).

(** The values js-yaml's default schema can produce, plus [undefined].
    A JavaScript string is held by its UTF-8 bytes, a lone surrogate by its
    three-byte form. *)
Inductive JsValue : Type :=
  | VUndefined
  | VNull
  | VBool (b : bool)
  | VNumber (n : JsNumber)
  | VString (s : string)
  | VDate (ms : Z)
  | VArray (xs : list JsValue)
  | VObject (props : gmap string JsValue).

(** ToBoolean *)
Definition truthy (v : JsValue) : bool :=
  match v with
  | VUndefined | VNull => false
  | VBool b => b
  | VNumber NaN => false
  | VNumber (Infinity _) => true
  | VNumber (Finite m _) => negb (m =? 0)%Z
  | VString s => negb (String.eqb s "")
  | VDate _ | VArray _ | VObject _ => true
  end.

(** [a || b] *)
Definition or (a b : JsValue) : JsValue := if truthy a then a else b.

(** Property names "0", "1", ... of an indexed value. *)
Definition indexed {A} (f : A → JsValue) (xs : list A) : gmap string JsValue :=
  list_to_map (imap (λ i x, (pretty i, f x)) xs).

(** The three-byte form of code unit [u]. *)
Definition threeBytes (u : N) : string :=
  String (Ascii.ascii_of_N (224 + N.shiftr u 12))
    (String (Ascii.ascii_of_N (128 + N.land (N.shiftr u 6) 63))
       (String (Ascii.ascii_of_N (128 + N.land u 63)) EmptyString)).

(** The UTF-16 code units of a string, each as a string of its own: one per
    character of one to three bytes, the two surrogates of a four-byte
    character.  A byte that starts no character is passed on by itself. *)
Fixpoint codeUnits (bytes : list Ascii.ascii) : list string :=
  match bytes with
  | [] => []
  | b0 :: rest0 =>
      let lone := String b0 EmptyString :: codeUnits rest0 in
      let n0 := Ascii.N_of_ascii b0 in
      if (n0 <? 192)%N then lone
      else if (n0 <? 224)%N then
        match rest0 with
        | b1 :: rest1 => String b0 (String b1 EmptyString) :: codeUnits rest1
        | [] => lone
        end
      else if (n0 <? 240)%N then
        match rest0 with
        | b1 :: b2 :: rest2 =>
            String b0 (String b1 (String b2 EmptyString)) :: codeUnits rest2
        | _ => lone
        end
      else
        match rest0 with
        | b1 :: b2 :: b3 :: rest3 =>
            let point :=
              (N.shiftl (N.land n0 7) 18
               + N.shiftl (N.land (Ascii.N_of_ascii b1) 63) 12
               + N.shiftl (N.land (Ascii.N_of_ascii b2) 63) 6
               + N.land (Ascii.N_of_ascii b3) 63)%N in
            let offset := (point - 65536)%N in
            threeBytes (55296 + N.shiftr offset 10)
            :: threeBytes (56320 + N.land offset 1023)
            :: codeUnits rest3
        | _ => lone
        end
  end.

(** Own enumerable properties, as copied by object spread [...v]. *)
Definition ownEnumerable (v : JsValue) : gmap string JsValue :=
  match v with
  | VObject props => props
  | VArray xs => indexed id xs
  | VString s => indexed VString (codeUnits (String.list_ascii_of_string s))
  | VUndefined | VNull | VBool _ | VNumber _ | VDate _ => ∅
  end.

(** [{ ...target, ...source }]: properties of [source] win. *)
Definition spread (target : gmap string JsValue) (source : JsValue)
  : gmap string JsValue :=
  ownEnumerable source ∪ target.

(** lodash [pickBy(obj, identity)]: keep the properties whose value is truthy. *)
Definition pickBy_identity (obj : gmap string JsValue) : gmap string JsValue :=
  filter (λ kv, truthy kv.2 = true) obj.

End Js.

(** ** Exceptions *)

Module Exn.

Inductive Exception : Type :=
  | ENOENT (path : string)
  | EISDIR (path : string)
  | YAMLException (reason : string).

Inductive Result (A : Type) : Type :=
  | Ok (a : A)
  | Throw (e : Exception).
Arguments Ok {A} a.
Arguments Throw {A} e.

Definition bind {A B} (r : Result A) (k : A → Result B) : Result B :=
  match r with
  | Ok a => k a
  | Throw e => Throw e
  end.

(** [x ← r; k] runs [k] unless [r] threw. *)
#[global] Instance result_bind : MBind Result := λ A B k r, bind r k.

End Exn.


(** ** The config loader *)

Module Config.
Import Js Exn.

(** What a path names on disk. *)
Inductive FsEntry : Type :=
  | File (content : string)
  | Directory.

(** [fs.existsSync] *)
Definition existsSync (fs : gmap string FsEntry) (path : string) : bool :=
  bool_decide (is_Some (fs !! path)).

(** [fs.readFileSync(path, 'utf8')] *)
Definition readFileSync (fs : gmap string FsEntry) (path : string) : Result string :=
  match fs !! path with
  | Some (File content) => Ok content
  | Some Directory => Throw (EISDIR path)
  | None => Throw (ENOENT path)
  end.

(** [process.env.NAME] *)
Definition process_env (env : gmap string string) (name : string) : JsValue :=
  match env !! name with
  | Some s => VString s
  | None => VUndefined
  end.

(** The literal the return value starts from. *)
Definition defaults : gmap string JsValue :=
  <["elasticsearch.hosts" := VString "http://localhost:9200"]>
  (<["xpack.apm.indices.onboarding" := VString "apm-*"]>
  (<["xpack.apm.indices.span" := VString "traces-apm*,apm-*,traces-*.otel-*"]>
  (<["xpack.apm.indices.error" := VString "logs-apm*,apm-*,logs-*.otel-*"]>
  (<["xpack.apm.indices.metric" := VString "metrics-apm*,apm-*,metrics-*.otel-*"]>
  (<["xpack.apm.indices.transaction" := VString "traces-apm*,apm-*,traces-*.otel-*"]>
   ∅))))).

Definition defaultedKeys : list string :=
  [ "xpack.apm.indices.transaction"; "xpack.apm.indices.metric";
    "xpack.apm.indices.error"; "xpack.apm.indices.span";
    "xpack.apm.indices.onboarding"; "elasticsearch.hosts" ].

(** The environment variable read for each credential key. *)
Definition credentialVars : list (string * string) :=
  [ ("elasticsearch.username", "ELASTICSEARCH_USERNAME");
    ("elasticsearch.password", "ELASTICSEARCH_PASSWORD");
    ("elasticsearch.hosts", "ELASTICSEARCH_HOST") ].

Definition cliEsCredentials (env : gmap string string) : gmap string JsValue :=
  pickBy_identity
    (<["elasticsearch.hosts" := process_env env "ELASTICSEARCH_HOST"]>
    (<["elasticsearch.password" := process_env env "ELASTICSEARCH_PASSWORD"]>
    (<["elasticsearch.username" := process_env env "ELASTICSEARCH_USERNAME"]>
     ∅))).

Section Loader.
(** Node's [path.join], the module's [__filename] and js-yaml's [load]
    are supplied by the runtime. *)
Variable path_join : string → string → string.
Variable filename : string.
Variable yaml_load : string → Result JsValue.

Definition kibanaConfigDir : string :=
  path_join filename "../../../../../../../config".
Definition kibanaDevConfig : string := path_join kibanaConfigDir "kibana.dev.yml".
Definition kibanaConfig : string := path_join kibanaConfigDir "kibana.yml".

(** The path handed to [readFileSync]. *)
Definition configPath (fs : gmap string FsEntry) : string :=
  if existsSync fs kibanaDevConfig then kibanaDevConfig else kibanaConfig.

Definition readKibanaConfig (fs : gmap string FsEntry) (env : gmap string string)
  : Result (gmap string JsValue) :=
  content ← readFileSync fs (configPath fs);
  doc ← yaml_load content;
  let loadedKibanaConfig := or doc (VObject ∅) in
  Ok (spread (spread defaults loadedKibanaConfig) (VObject (cliEsCredentials env))).

End Loader.

End Config.

(** ** The theme hook *)

Module Theme.

(** The payload of [theme$]; the hook reads [darkMode] only. *)
Record CoreTheme : Type := { darkMode : bool }.

Definition themeDefault : CoreTheme := {| darkMode := false |}.

(** A stream handed in from outside: its identity, and the notifications a
    new subscriber receives while [subscribe] runs (a replaying stream
    replays its current value, a plain subject nothing).  What the stream
    emits afterwards arrives through [next]. *)
Record Stream : Type := { stream_id : nat; replayed : list CoreTheme }.

(** The observables the hook meets: a stream taken from the theme service,
    or the [n]-th observable this hook instance made with rxjs [of]. *)
Inductive Observable : Type :=
  | FromService (stream : Stream)
  | Of (n : nat) (value : CoreTheme).

(** What [subscribe] delivers before it returns; [of(x)] delivers [x] and
    completes. *)
Definition onSubscribe (obs : Observable) : list CoreTheme :=
  match obs with
  | FromService stream => replayed stream
  | Of _ value => [value]
  end.

(** [ThemeServiceStart]: the object's identity and its [theme$] member.  Two
    services are the same object exactly when they are equal. *)
Record ThemeServiceStart : Type := {
  service_id : nat;
  theme_stream : option Stream }.

#[global] Instance CoreTheme_eq_dec : EqDecision CoreTheme.
Proof. solve_decision. Defined.
#[global] Instance Stream_eq_dec : EqDecision Stream.
Proof. solve_decision. Defined.
#[global] Instance Observable_eq_dec : EqDecision Observable.
Proof. solve_decision. Defined.
#[global] Instance ThemeServiceStart_eq_dec : EqDecision ThemeServiceStart.
Proof. solve_decision. Defined.

(** The hook slots of one mounted component, which React keeps from render
    to render. *)
Record Hooks : Type := {
  (** [useMemo]: the [theme] it last computed for, and the result *)
  memo : option (option ThemeServiceStart * Observable);
  (** [useObservable]'s [useState] cell; [None] before the first render *)
  cell : option CoreTheme;
  (** the observable passed at the latest render, which the pending layout
      effect closes over *)
  observed : option Observable;
  (** the observable the layout effect last subscribed to *)
  subscription : option Observable;
  (** how many observables [of] has made so far *)
  created : nat }.


(** [useMemo(() => theme?.theme$ ?? of(themeDefault), [theme])] *)
Definition themeObservable (theme : option ThemeServiceStart) (h : Hooks)
  : Observable * Hooks :=
  let compute :=
    match theme ≫= theme_stream with
    | Some stream =>
        (FromService stream,
         {| memo := Some (theme, FromService stream); cell := cell h;
            observed := observed h; subscription := subscription h;
            created := created h |})
    | None =>
        (Of (created h) themeDefault,
         {| memo := Some (theme, Of (created h) themeDefault); cell := cell h;
            observed := observed h; subscription := subscription h;
            created := S (created h) |})
    end in
  match memo h with
  | Some (deps, obs) => if bool_decide (deps = theme) then (obs, h) else compute
  | None => compute
  end.

(** react-use [useObservable(obs$, initialValue)], the render part: read the
    state cell, which the first render initialises, and leave the
    subscription to the layout effect. *)
Definition useObservable (obs : Observable) (initialValue : CoreTheme) (h : Hooks)
  : CoreTheme * Hooks :=
  let value := default initialValue (cell h) in
  (value,
   {| memo := memo h; cell := Some value; observed := Some obs;
      subscription := subscription h; created := created h |}).

(** One render pass: the returned boolean and the hook slots afterwards. *)
Definition useIsDarkTheme (theme : option ThemeServiceStart) (h : Hooks) : bool * Hooks :=
  let '(themeObservable_, h1) := themeObservable theme h in
  let '(value, h2) := useObservable themeObservable_ themeDefault h1 in
  (darkMode value, h2).

(** [useObservable]'s layout effect, with dependency [obs$]: when the
    observable is not the one subscribed to, drop that subscription and
    subscribe, storing every notification [subscribe] delivers in the state
    cell.  Returns the notifications delivered. *)
Definition layoutEffect (h : Hooks) : list CoreTheme * Hooks :=
  match observed h with
  | None => ([], h)
  | Some obs =>
      if bool_decide (subscription h = Some obs) then ([], h)
      else
        (onSubscribe obs,
         {| memo := memo h;
            cell := foldl (λ _ value, Some value) (cell h) (onSubscribe obs);
            observed := observed h; subscription := Some obs;
            created := created h |})
  end.


(** A render pass with [theme] and the layout effect after it: what the
    pass returned, what the effect's [subscribe] delivered, and the slots
    afterwards. *)
Definition commit (theme : option ThemeServiceStart) (h : Hooks)
  : bool * list CoreTheme * Hooks :=
  let '(returned, h1) := useIsDarkTheme theme h in
  let '(delivered, h2) := layoutEffect h1 in
  (returned, delivered, h2).





End Theme.

(** ** The chart panel *)

Module Chart.

Inductive UnifiedHistogramSuggestionType : Type :=
  | lensSuggestion
  | histogramForESQL
  | histogramForDataView.

Definition suggestionType_eqb (a b : UnifiedHistogramSuggestionType) : bool :=
  match a, b with
  | lensSuggestion, lensSuggestion
  | histogramForESQL, histogramForESQL
  | histogramForDataView, histogramForDataView => true
  | _, _ => false
  end.

(** [chart.hidden]; an absent flag reads as falsy. *)
Record ChartContext : Type := { hidden : bool }.

(** Lens attributes are opaque to the panel; only their presence is tested. *)
Record LensAttributes : Type := { title : string }.

Record VisContext : Type := { attributes : option LensAttributes }.

Record SuggestionContext : Type := {
  suggestion : option string;
  suggestionType : UnifiedHistogramSuggestionType }.

(** Everything a render pass of [Chart] branches on: props, the current
    values of the two observables, and what collaborating hooks and services
    return.  A callback or element is recorded by its presence. *)
Record ChartInputs : Type := {
  isChartAvailable : bool;
  chart : option ChartContext;
  isPlainRecord : bool;
  breakdown : bool;
  renderCustomChartToggleActions : bool;
  appendHistogram : bool;
  isChartLoading : bool;
  onTimeIntervalChange : bool;
  (** [useObservable(lensVisService.currentSuggestionContext$)] *)
  lensVisServiceCurrentSuggestionContext : option SuggestionContext;
  (** [useObservable(lensVisService.visContext$)] *)
  visContext : option VisContext;
  (** whether [useEditVisualization] returned a callback *)
  onEditVisualization : bool;
  (** truthiness of [services.capabilities.dashboard?.showWriteControls] *)
  showWriteControls : bool }.

(** The two [useState] cells, and the dependency array the effect last ran
    with ([None] before the first commit). *)
Record Hooks : Type := {
  isSaveModalVisible : bool;
  isFlyoutVisible : bool;
  effectDeps : option (bool * bool) }.

Definition currentSuggestion (i : ChartInputs) : option string :=
  match lensVisServiceCurrentSuggestionContext i with
  | Some ctx => suggestion ctx
  | None => None
  end.

Definition chartVisible (i : ChartInputs) : bool :=
  isChartAvailable i
  && match chart i with Some c => negb (hidden c) | None => false end
  && match visContext i with Some v => bool_decide (is_Some (attributes v)) | None => false end.

(** [[lensSuggestion, histogramForESQL].includes(ctx?.type)] *)
Definition typeIncluded (ctx : option SuggestionContext) : bool :=
  match ctx with
  | Some c =>
      suggestionType_eqb lensSuggestion (suggestionType c)
      || suggestionType_eqb histogramForESQL (suggestionType c)
  | None => false
  end.

Definition hasLensSuggestions (i : ChartInputs) : bool :=
  isPlainRecord i
  && match lensVisServiceCurrentSuggestionContext i with
     | Some c => suggestionType_eqb (suggestionType c) lensSuggestion
     | None => false
     end.

Definition canCustomizeVisualization (i : ChartInputs) : bool :=
  isPlainRecord i
  && bool_decide (is_Some (currentSuggestion i))
  && typeIncluded (lensVisServiceCurrentSuggestionContext i).

Definition canEditVisualizationOnTheFly (i : ChartInputs) : bool :=
  canCustomizeVisualization i && chartVisible i.

Definition canSaveVisualization (i : ChartInputs) : bool :=
  canEditVisualizationOnTheFly i && showWriteControls i.

(** The buttons pushed onto [actions], named by their [data-test-subj]. *)
Inductive ActionButton : Type :=
  | unifiedHistogramEditFlyoutVisualization (isDisabled : bool)
  | unifiedHistogramEditVisualization
  | unifiedHistogramSaveVisualization.

Definition actions (i : ChartInputs) (h : Hooks) : list ActionButton :=
  (if canEditVisualizationOnTheFly i
   then [unifiedHistogramEditFlyoutVisualization (isFlyoutVisible h)]
   else if onEditVisualization i then [unifiedHistogramEditVisualization] else [])
  ++ (if canSaveVisualization i then [unifiedHistogramSaveVisualization] else []).

(** The returned element tree, reduced to which children are present. *)
Inductive ToggleArea : Type :=
  | CustomChartToggleActions
  | ToggleChartButton (label iconType : string).

Record HistogramSection : Type := {
  progressBar : bool;
  histogramHasLensSuggestions : bool;
  appended : bool }.

Record ChartPanel : Type := {
  toggleArea : ToggleArea;
  timeIntervalSelector : bool;
  breakdownFieldSelector : bool;
  (** the "Chart actions" [IconButtonGroup] and its [buttons] *)
  chartActionsGroup : option (list ActionButton);
  histogramSection : option HistogramSection;
  lensSaveModal : bool;
  chartConfigPanel : bool }.

Inductive Rendered : Type :=
  | unifiedHistogramChartPanelHidden
  | unifiedHistogramCollapsablePanel (panel : ChartPanel).

Definition render (i : ChartInputs) (h : Hooks) : Rendered :=
  if renderCustomChartToggleActions i && negb (chartVisible i)
  then unifiedHistogramChartPanelHidden
  else
    unifiedHistogramCollapsablePanel
      {| toggleArea :=
           if renderCustomChartToggleActions i then CustomChartToggleActions
           else if chartVisible i then ToggleChartButton "Hide chart" "transitionTopOut"
           else ToggleChartButton "Show chart" "transitionTopIn";
         timeIntervalSelector :=
           chartVisible i && negb (isPlainRecord i) && onTimeIntervalChange i;
         breakdownFieldSelector := chartVisible i && breakdown i;
         chartActionsGroup :=
           if chartVisible i && (0 <? length (actions i h))
           then Some (actions i h) else None;
         histogramSection :=
           if chartVisible i
           then Some {| progressBar := isChartLoading i;
                        histogramHasLensSuggestions := hasLensSuggestions i;
                        appended := appendHistogram i |}
           else None;
         lensSaveModal :=
           canSaveVisualization i && isSaveModalVisible h
           && match visContext i with
              | Some v => bool_decide (is_Some (attributes v))
              | None => false
              end;
         chartConfigPanel :=
           isFlyoutVisible h
           && bool_decide (is_Some (visContext i))
           && bool_decide (is_Some (lensVisServiceCurrentSuggestionContext i)) |}.

(** The chart-actions group of a rendered tree, if it has one. *)
Definition renderedActions (r : Rendered) : option (list ActionButton) :=
  match r with
  | unifiedHistogramChartPanelHidden => None
  | unifiedHistogramCollapsablePanel panel => chartActionsGroup panel
  end.

Definition rendersSaveModal (r : Rendered) : bool :=
  match r with
  | unifiedHistogramChartPanelHidden => false
  | unifiedHistogramCollapsablePanel panel => lensSaveModal panel
  end.

Definition rendersConfigPanel (r : Rendered) : bool :=
  match r with
  | unifiedHistogramChartPanelHidden => false
  | unifiedHistogramCollapsablePanel panel => chartConfigPanel panel
  end.

Definition setIsFlyoutVisible (b : bool) (h : Hooks) : Hooks :=
  {| isSaveModalVisible := isSaveModalVisible h;
     isFlyoutVisible := b;
     effectDeps := effectDeps h |}.

Definition setIsSaveModalVisible (b : bool) (h : Hooks) : Hooks :=
  {| isSaveModalVisible := b;
     isFlyoutVisible := isFlyoutVisible h;
     effectDeps := effectDeps h |}.

(** One render pass and the effect that follows it.  The effect is skipped
    when [chartVisible, isFlyoutVisible] are the values it last ran with. *)
Definition commit (i : ChartInputs) (h : Hooks) : Hooks :=
  let deps := (chartVisible i, isFlyoutVisible h) in
  if bool_decide (effectDeps h = Some deps) then h
  else
    let ran := {| isSaveModalVisible := isSaveModalVisible h;
                  isFlyoutVisible := isFlyoutVisible h;
                  effectDeps := Some deps |} in
    if negb (chartVisible i) && isFlyoutVisible h
    then setIsFlyoutVisible false ran
    else ran.

(** An update cycle: commit, and commit again if the effect changed state. *)
Definition flush (i : ChartInputs) (h : Hooks) : Hooks :=
  let h1 := commit i h in
  if bool_decide (isFlyoutVisible h1 = isFlyoutVisible h) then h1 else commit i h1.

(** A mounted component between update cycles. *)
Record State : Type := { inputs : ChartInputs; hooks : Hooks }.

Definition mount (i : ChartInputs) : State :=
  {| inputs := i;
     hooks := flush i {| isSaveModalVisible := false;
                         isFlyoutVisible := false;
                         effectDeps := None |} |}.

Definition view (s : State) : Rendered := render (inputs s) (hooks s).

Definition update (s : State) (f : Hooks → Hooks) : State :=
  {| inputs := inputs s; hooks := flush (inputs s) (f (hooks s)) |}.

Definition actionButton_eqb (a b : ActionButton) : bool :=
  match a, b with
  | unifiedHistogramEditFlyoutVisualization x,
    unifiedHistogramEditFlyoutVisualization y => bool_decide (x = y)
  | unifiedHistogramEditVisualization, unifiedHistogramEditVisualization
  | unifiedHistogramSaveVisualization, unifiedHistogramSaveVisualization => true
  | _, _ => false
  end.

(** Whether [view s] offers button [b] in its chart-actions group. *)
Definition offers (s : State) (b : ActionButton) : bool :=
  match renderedActions (view s) with
  | Some buttons => existsb (actionButton_eqb b) buttons
  | None => false
  end.

(** What can happen to a mounted panel.  The visibility toggle only calls
    back into the host, whose answer arrives as a [Rerender]. *)
Inductive Event : Type :=
  (** the host passes new props, or an observable or hook yields a new value *)
  | Rerender (i : ChartInputs)
  (** a click on a button of the chart-actions group *)
  | Click (b : ActionButton)
  (** the save modal's [onClose] *)
  | SaveModalClose
  (** [ChartConfigPanel] calls the [setIsFlyoutVisible] it was given *)
  | ConfigPanelSetFlyout (b : bool).

(** The state after an event, or [None] when the current tree does not
    offer it.  A disabled button does not fire its [onClick]. *)
Definition step (s : State) (e : Event) : option State :=
  match e with
  | Rerender i => Some {| inputs := i; hooks := flush i (hooks s) |}
  | Click (unifiedHistogramEditFlyoutVisualization isDisabled) =>
      if offers s (unifiedHistogramEditFlyoutVisualization isDisabled) && negb isDisabled
      then Some (update s (setIsFlyoutVisible true)) else None
  | Click unifiedHistogramEditVisualization =>
      if offers s unifiedHistogramEditVisualization then Some s else None
  | Click unifiedHistogramSaveVisualization =>
      if offers s unifiedHistogramSaveVisualization
      then Some (update s (setIsSaveModalVisible true)) else None
  | SaveModalClose =>
      if rendersSaveModal (view s)
      then Some (update s (setIsSaveModalVisible false)) else None
  | ConfigPanelSetFlyout b =>
      if rendersConfigPanel (view s)
      then Some (update s (setIsFlyoutVisible b)) else None
  end.

Inductive reachable : State → Prop :=
  | reachable_mount i : reachable (mount i)
  | reachable_step s e s' : reachable s → step s e = Some s' → reachable s'.

(** What the effect's last run recorded is itself a consistent pair. *)
Definition depsConsistent (h : Hooks) : Prop :=
  ∀ visible flyout, effectDeps h = Some (visible, flyout) → flyout = true → visible = true.

(** Between update cycles: the effect has seen the current values, and the
    flyout is open only over a visible chart. *)
Definition settled (i : ChartInputs) (h : Hooks) : Prop :=
  effectDeps h = Some (chartVisible i, isFlyoutVisible h)
  ∧ (isFlyoutVisible h = true → chartVisible i = true).

End Chart.

(** ** Sample runtimes and inputs for the examples *)

Module Samples.
Import Js Exn Config.

(** A [path.join] that only concatenates; enough to tell the two files apart. *)
Definition join (a b : string) : string := a +:+ "/" +:+ b.

Definition module_file : string := "/kibana/read_kibana_config.ts".

(** js-yaml's answers on the documents used below; no other input is used. *)
Definition load (content : string) : Result JsValue :=
  if String.eqb content "" then Ok VUndefined
  else if String.eqb content "~" then Ok VNull
  else if String.eqb content "elasticsearch.hosts: http://dev:9200"
  then Ok (VObject {[ "elasticsearch.hosts" := VString "http://dev:9200" ]})
  else if String.eqb content "elasticsearch.hosts: http://prod:9200"
  then Ok (VObject {[ "elasticsearch.hosts" := VString "http://prod:9200" ]})
  else if String.eqb content "xpack.apm.indices.span: spans-*"
  then Ok (VObject {[ "xpack.apm.indices.span" := VString "spans-*" ]})
  else Throw (YAMLException "unexpected end of the stream within a flow mapping").

Definition dev_path : string := kibanaDevConfig join module_file.
Definition prod_path : string := kibanaConfig join module_file.

Definition both_files : gmap string FsEntry :=
  <[dev_path := File "elasticsearch.hosts: http://dev:9200"]>
  (<[prod_path := File "elasticsearch.hosts: http://prod:9200"]> ∅).

Definition prod_only : gmap string FsEntry :=
  <[prod_path := File "elasticsearch.hosts: http://prod:9200"]> ∅.

Definition span_only : gmap string FsEntry :=
  <[prod_path := File "xpack.apm.indices.span: spans-*"]> ∅.

Definition empty_prod : gmap string FsEntry := <[prod_path := File ""]> ∅.

Definition broken_prod : gmap string FsEntry := <[prod_path := File "{"]> ∅.

Definition host_env : gmap string string :=
  <["ELASTICSEARCH_HOST" := "http://cli:9200"]> ∅.

Definition blank_host_env : gmap string string :=
  <["ELASTICSEARCH_HOST" := ""]> (<["HOME" := "/root"]> ∅).

(** A data-view mode panel with a visible chart and no edit callback. *)
Definition dataview_visible : Chart.ChartInputs :=
  {| Chart.isChartAvailable := true;
     Chart.chart := Some {| Chart.hidden := false |};
     Chart.isPlainRecord := false;
     Chart.breakdown := false;
     Chart.renderCustomChartToggleActions := false;
     Chart.appendHistogram := false;
     Chart.isChartLoading := false;
     Chart.onTimeIntervalChange := true;
     Chart.lensVisServiceCurrentSuggestionContext := None;
     Chart.visContext := Some {| Chart.attributes := Some {| Chart.title := "Histogram" |} |};
     Chart.onEditVisualization := false;
     Chart.showWriteControls := true |}.

(** An ES|QL mode panel showing a Lens suggestion. *)
Definition esql_visible : Chart.ChartInputs :=
  {| Chart.isChartAvailable := true;
     Chart.chart := Some {| Chart.hidden := false |};
     Chart.isPlainRecord := true;
     Chart.breakdown := false;
     Chart.renderCustomChartToggleActions := false;
     Chart.appendHistogram := false;
     Chart.isChartLoading := false;
     Chart.onTimeIntervalChange := false;
     Chart.lensVisServiceCurrentSuggestionContext :=
       Some {| Chart.suggestion := Some "Bar vertical stacked";
               Chart.suggestionType := Chart.lensSuggestion |};
     Chart.visContext := Some {| Chart.attributes := Some {| Chart.title := "Suggestion" |} |};
     Chart.onEditVisualization := false;
     Chart.showWriteControls := true |}.

(** The same panel after the user hid the chart. *)
Definition esql_hidden : Chart.ChartInputs :=
  {| Chart.isChartAvailable := true;
     Chart.chart := Some {| Chart.hidden := true |};
     Chart.isPlainRecord := true;
     Chart.breakdown := false;
     Chart.renderCustomChartToggleActions := false;
     Chart.appendHistogram := false;
     Chart.isChartLoading := false;
     Chart.onTimeIntervalChange := false;
     Chart.lensVisServiceCurrentSuggestionContext :=
       Some {| Chart.suggestion := Some "Bar vertical stacked";
               Chart.suggestionType := Chart.lensSuggestion |};
     Chart.visContext := Some {| Chart.attributes := Some {| Chart.title := "Suggestion" |} |};
     Chart.onEditVisualization := false;
     Chart.showWriteControls := true |}.

(** The ES|QL panel once its edit button was clicked. *)
Definition esql_editing : option Chart.State :=
  Chart.step (Chart.mount esql_visible)
    (Chart.Click (Chart.unifiedHistogramEditFlyoutVisualization false)).

(** A dev file cut off in the middle of a flow mapping, beside a sound
    production file. *)
Definition broken_dev : gmap string FsEntry :=
  <[dev_path := File "{"]>
  (<[prod_path := File "elasticsearch.hosts: http://prod:9200"]> ∅).

(** A document holding the bare number 42. *)
Definition number_document : JsValue := VNumber (Finite 42 0).

(** An environment with user name and host, and an unrelated variable. *)
Definition user_env : gmap string string :=
  <["ELASTICSEARCH_USERNAME" := "elastic"]>
  (<["ELASTICSEARCH_HOST" := "http://cli:9200"]> (<["HOME" := "/root"]> ∅)).




End Samples.

(** * Properties of the config loader *)

Section ConfigProperties.
Import Js Exn Config.

Variable path_join : string → string → string.
Variable filename : string.
Variable yaml_load : string → Result JsValue.

Local Abbreviation readKibanaConfig := (Config.readKibanaConfig path_join filename yaml_load).
Local Abbreviation configPath := (Config.configPath path_join filename).
Local Abbreviation kibanaDevConfig := (Config.kibanaDevConfig path_join filename).
Local Abbreviation kibanaConfig := (Config.kibanaConfig path_join filename).

(** What [pickBy] leaves of the credentials literal, key by key. *)
Lemma cliEsCredentials_lookup env key :
  cliEsCredentials env !! key =
    if decide (key = "elasticsearch.hosts")
    then guard (truthy (process_env env "ELASTICSEARCH_HOST") = true);;
         Some (process_env env "ELASTICSEARCH_HOST")
    else if decide (key = "elasticsearch.password")
    then guard (truthy (process_env env "ELASTICSEARCH_PASSWORD") = true);;
         Some (process_env env "ELASTICSEARCH_PASSWORD")
    else if decide (key = "elasticsearch.username")
    then guard (truthy (process_env env "ELASTICSEARCH_USERNAME") = true);;
         Some (process_env env "ELASTICSEARCH_USERNAME")
    else None.
Proof.
  unfold cliEsCredentials, pickBy_identity.
  rewrite map_lookup_filter.
  repeat case_decide; subst; simplify_map_eq; reflexivity.
Qed.

Lemma process_env_truthy env var :
  truthy (process_env env var) = true ↔ ∃ s, env !! var = Some s ∧ s ≠ "".
Proof.
  unfold process_env. destruct (env !! var) as [s|]; simpl.
  - rewrite negb_true_iff. split.
    + intros H. exists s. split; [done|]. intros ->. discriminate.
    + intros (s' & [= <-] & Hs). by apply String.eqb_neq.
  - split; [discriminate|]. by intros (s & ? & _).
Qed.

(** A set, non-empty variable puts its value under its key. *)
Lemma cliEsCredentials_set env key var s :
  (key, var) ∈ credentialVars → env !! var = Some s → s ≠ "" →
  cliEsCredentials env !! key = Some (VString s).
Proof.
  intros Hin Hs Hne.
  assert (Ht : truthy (process_env env var) = true)
    by (apply process_env_truthy; eauto).
  assert (Hv : process_env env var = VString s)
    by (unfold process_env; by rewrite Hs).
  rewrite cliEsCredentials_lookup.
  unfold credentialVars in Hin. rewrite !elem_of_cons, elem_of_nil in Hin.
  destruct Hin as [[= -> ->]|[[= -> ->]|[[= -> ->]|[]]]];
    repeat case_decide; try done;
    rewrite option_guard_True by done; simpl; by rewrite Hv.
Qed.

(** An unset or empty variable leaves its key out. *)
Lemma cliEsCredentials_unset env key var :
  (key, var) ∈ credentialVars → env !! var = None ∨ env !! var = Some "" →
  cliEsCredentials env !! key = None.
Proof.
  intros Hin Hs.
  assert (Ht : ¬ truthy (process_env env var) = true).
  { rewrite process_env_truthy. intros (s & Hs' & Hne).
    destruct Hs as [Hs|Hs]; rewrite Hs in Hs'; [done|]. by injection Hs' as <-. }
  rewrite cliEsCredentials_lookup.
  unfold credentialVars in Hin. rewrite !elem_of_cons, elem_of_nil in Hin.
  destruct Hin as [[= -> ->]|[[= -> ->]|[[= -> ->]|[]]]];
    repeat case_decide; try done;
    by rewrite option_guard_False.
Qed.

(** Keys other than the three credential keys are never picked. *)
Lemma cliEsCredentials_other env key :
  key ∉ credentialVars.*1 → cliEsCredentials env !! key = None.
Proof.
  intros Hnot. rewrite cliEsCredentials_lookup.
  repeat case_decide; subst; try done; exfalso; apply Hnot; set_solver.
Qed.

(** The loader's answer once the file was read and parsed. *)
Lemma readKibanaConfig_loaded fs env content doc :
  readFileSync fs (configPath fs) = Ok content → yaml_load content = Ok doc →
  readKibanaConfig fs env =
    Ok (cliEsCredentials env ∪ (ownEnumerable (or doc (VObject ∅)) ∪ defaults)).
Proof.
  intros Hread Hload. unfold Config.readKibanaConfig.
  rewrite Hread. simpl. rewrite Hload. reflexivity.
Qed.

(** Lookup in the three-layer merge. *)
Lemma merged_lookup (cli loaded base : gmap string JsValue) key :
  (cli ∪ (loaded ∪ base)) !! key =
    match cli !! key with
    | Some v => Some v
    | None => match loaded !! key with Some v => Some v | None => base !! key end
    end.
Proof.
  rewrite !lookup_union.
  destruct (cli !! key), (loaded !! key), (base !! key); reflexivity.
Qed.

Lemma configPath_dev fs :
  is_Some (fs !! kibanaDevConfig) → configPath fs = kibanaDevConfig.
Proof.
  intros H. unfold Config.configPath, existsSync. by rewrite bool_decide_eq_true_2.
Qed.

Lemma configPath_prod fs :
  fs !! kibanaDevConfig = None → configPath fs = kibanaConfig.
Proof.
  intros H. unfold Config.configPath, existsSync.
  rewrite bool_decide_eq_false_2; [done|]. rewrite H. by intros [? ?].
Qed.

Lemma defaults_defined key : key ∈ defaultedKeys → is_Some (defaults !! key).
Proof.
  unfold defaultedKeys. rewrite !elem_of_cons, elem_of_nil.
  intros H. repeat destruct H as [->|H]; try done; by vm_compute.
Qed.

(** C1: the YAML settings are read from kibana.dev.yml whenever that path
    exists and from kibana.yml otherwise.  With both files present the result
    does not depend on the production file and carries every value of the dev
    document (under every key the environment does not override, see C2);
    with the dev file missing the loader falls back to the production file
    and returns its settings, with no exception from the missing file. *)
Theorem readKibanaConfig_dev_before_prod fs env :
  (is_Some (fs !! kibanaDevConfig) → configPath fs = kibanaDevConfig)
  ∧ (fs !! kibanaDevConfig = None → configPath fs = kibanaConfig)
  ∧ (∀ dev prod doc,
       fs !! kibanaDevConfig = Some (File dev) →
       fs !! kibanaConfig = Some prod →
       yaml_load dev = Ok doc →
       ∃ cfg, readKibanaConfig fs env = Ok cfg
         ∧ (∀ fs', fs' !! kibanaDevConfig = fs !! kibanaDevConfig →
                   readKibanaConfig fs' env = Ok cfg)
         ∧ ∀ key v, ownEnumerable (or doc (VObject ∅)) !! key = Some v →
                    cliEsCredentials env !! key = None → cfg !! key = Some v)
  ∧ (∀ prod doc,
       fs !! kibanaDevConfig = None →
       fs !! kibanaConfig = Some (File prod) →
       yaml_load prod = Ok doc →
       ∃ cfg, readKibanaConfig fs env = Ok cfg
         ∧ ∀ key v, ownEnumerable (or doc (VObject ∅)) !! key = Some v →
                    cliEsCredentials env !! key = None → cfg !! key = Some v).
Proof.
  split; [apply configPath_dev|]. split; [apply configPath_prod|]. split.
  - intros dev prod doc Hdev Hprod Hload.
    assert (Hread : readFileSync fs (configPath fs) = Ok dev).
    { rewrite configPath_dev by eauto. unfold readFileSync. by rewrite Hdev. }
    eexists. split; [by apply readKibanaConfig_loaded with (content := dev)|].
    split.
    + intros fs' Hsame.
      apply readKibanaConfig_loaded with (content := dev); [|done].
      rewrite configPath_dev by (rewrite Hsame; eauto).
      unfold readFileSync. by rewrite Hsame, Hdev.
    + intros key v Hk Hcli. rewrite merged_lookup, Hcli, Hk. done.
  - intros prod doc Hdev Hprod Hload.
    assert (Hread : readFileSync fs (configPath fs) = Ok prod).
    { rewrite configPath_prod by done. unfold readFileSync. by rewrite Hprod. }
    eexists. split; [by apply readKibanaConfig_loaded with (content := prod)|].
    intros key v Hk Hcli. rewrite merged_lookup, Hcli, Hk. done.
Qed.

(** C2 (amended): whenever one of ELASTICSEARCH_USERNAME,
    ELASTICSEARCH_PASSWORD, ELASTICSEARCH_HOST is set to a non-empty string,
    the loader returns a mapping whose corresponding key holds exactly that
    string, whatever the YAML document and the defaults say. *)
Theorem nonempty_env_var_overrides fs env content doc key var s :
  readFileSync fs (configPath fs) = Ok content →
  yaml_load content = Ok doc →
  (key, var) ∈ credentialVars →
  env !! var = Some s →
  s ≠ "" →
  ∃ cfg, readKibanaConfig fs env = Ok cfg ∧ cfg !! key = Some (VString s).
Proof.
  intros Hread Hload Hin Hs Hne.
  eexists. split; [by apply readKibanaConfig_loaded with (content := content)|].
  rewrite merged_lookup.
  by rewrite (cliEsCredentials_set env key var s).
Qed.

(** C5: once the file is read and parsed, the returned mapping has a value
    under each of the six defaulted keys; every key is resolved with the
    precedence defaults < YAML document < environment; and a key provided by
    neither the document nor the environment has its built-in default, which
    for 'elasticsearch.hosts' is 'http://localhost:9200'. *)
Theorem defaults_yaml_env_precedence fs env content doc :
  readFileSync fs (configPath fs) = Ok content →
  yaml_load content = Ok doc →
  ∃ cfg, readKibanaConfig fs env = Ok cfg
    ∧ (∀ key, key ∈ defaultedKeys → is_Some (cfg !! key))
    ∧ (∀ key, cfg !! key =
         match cliEsCredentials env !! key with
         | Some v => Some v
         | None =>
             match ownEnumerable (or doc (VObject ∅)) !! key with
             | Some v => Some v
             | None => defaults !! key
             end
         end)
    ∧ (∀ key, ownEnumerable (or doc (VObject ∅)) !! key = None →
              cliEsCredentials env !! key = None →
              cfg !! key = defaults !! key)
    ∧ (ownEnumerable (or doc (VObject ∅)) !! "elasticsearch.hosts" = None →
       env !! "ELASTICSEARCH_HOST" = None ∨ env !! "ELASTICSEARCH_HOST" = Some "" →
       cfg !! "elasticsearch.hosts" = Some (VString "http://localhost:9200")).
Proof.
  intros Hread Hload.
  eexists. split; [by apply readKibanaConfig_loaded with (content := content)|].
  split; [|split; [|split]].
  - intros key Hkey. rewrite merged_lookup.
    destruct (cliEsCredentials env !! key); [by eexists|].
    destruct (ownEnumerable _ !! key); [by eexists|].
    by apply defaults_defined.
  - intros key. apply merged_lookup.
  - intros key Hdoc Hcli. by rewrite merged_lookup, Hcli, Hdoc.
  - intros Hdoc Henv. rewrite merged_lookup, Hdoc.
    rewrite (cliEsCredentials_unset env _ "ELASTICSEARCH_HOST");
      [reflexivity| |done].
    unfold credentialVars. rewrite !elem_of_cons. auto.
Qed.

(** C6: when the chosen file's content is not valid YAML, i.e. js-yaml's
    [load] throws on it, the loader throws that same exception and returns no
    settings mapping. *)
Theorem malformed_yaml_propagates fs env content e :
  readFileSync fs (configPath fs) = Ok content →
  yaml_load content = Throw e →
  readKibanaConfig fs env = Throw e ∧ ∀ cfg, readKibanaConfig fs env ≠ Ok cfg.
Proof.
  intros Hread Hload.
  assert (H : readKibanaConfig fs env = Throw e).
  { unfold Config.readKibanaConfig. rewrite Hread. simpl. by rewrite Hload. }
  split; [done|]. intros cfg. by rewrite H.
Qed.

(** C7: the environment reaches the result through the three elasticsearch
    keys only: under every other key the returned mapping holds what the
    YAML-over-defaults merge holds, which is also what the loader returns
    under an empty environment. *)
Theorem env_touches_credential_keys_only fs env content doc :
  readFileSync fs (configPath fs) = Ok content →
  yaml_load content = Ok doc →
  ∃ cfg base,
    readKibanaConfig fs env = Ok cfg
    ∧ readKibanaConfig fs ∅ = Ok base
    ∧ base = spread defaults (or doc (VObject ∅))
    ∧ ∀ key, key ∉ credentialVars.*1 → cfg !! key = base !! key.
Proof.
  intros Hread Hload.
  exists (cliEsCredentials env ∪ (ownEnumerable (or doc (VObject ∅)) ∪ defaults)).
  exists (spread defaults (or doc (VObject ∅))).
  split; [by apply readKibanaConfig_loaded with (content := content)|].
  split.
  - rewrite (readKibanaConfig_loaded fs ∅ content doc) by done.
    f_equal. apply map_eq. intros key. rewrite merged_lookup.
    unfold spread. rewrite lookup_union.
    rewrite cliEsCredentials_lookup. unfold process_env.
    rewrite !lookup_empty. simpl.
    repeat case_decide; rewrite ?option_guard_False by done;
      by destruct (ownEnumerable _ !! key), (defaults !! key).
  - split; [done|]. intros key Hkey.
    by rewrite lookup_union_r by (by apply cliEsCredentials_other).
Qed.

(** C8: a credential variable set to the empty string counts as absent:
    the loader answers exactly as it does with that variable removed from the
    environment, and the variable's key keeps the value of the
    YAML-over-defaults merge. *)
Theorem empty_env_var_is_absent fs env key var :
  (key, var) ∈ credentialVars →
  env !! var = Some "" →
  readKibanaConfig fs env = readKibanaConfig fs (delete var env)
  ∧ ∀ content doc,
      readFileSync fs (configPath fs) = Ok content →
      yaml_load content = Ok doc →
      ∃ cfg, readKibanaConfig fs env = Ok cfg
        ∧ cfg !! key = spread defaults (or doc (VObject ∅)) !! key.
Proof.
  intros Hin Hempty. split.
  - assert (Hcli : cliEsCredentials env = cliEsCredentials (delete var env)).
    { apply map_eq. intros k. rewrite !cliEsCredentials_lookup.
      unfold credentialVars in Hin. rewrite !elem_of_cons, elem_of_nil in Hin.
      unfold process_env.
      destruct Hin as [[= -> ->]|[[= -> ->]|[[= -> ->]|[]]]];
        rewrite ?lookup_delete_eq, ?lookup_delete_ne by done;
        rewrite ?Hempty; simpl;
        repeat case_decide; rewrite ?option_guard_False by done; reflexivity. }
    unfold Config.readKibanaConfig. by rewrite Hcli.
  - intros content doc Hread Hload.
    eexists. split; [by apply readKibanaConfig_loaded with (content := content)|].
    by rewrite lookup_union_r by (apply (cliEsCredentials_unset env key var); auto).
Qed.

(** C9: when the chosen file parses to null or undefined (an empty file),
    the loader does not fail: the document counts as the empty mapping and
    the result is the built-in defaults overlaid with the environment
    overrides.  Every credential key whose variable is set to a non-empty
    string holds that string, every other key holds its built-in default if
    it has one, the five xpack.apm.indices.* keys hold their literals, and
    'elasticsearch.hosts' is 'http://localhost:9200' unless its variable
    overrides it. *)
Theorem null_document_yields_defaults fs env content doc :
  readFileSync fs (configPath fs) = Ok content →
  yaml_load content = Ok doc →
  doc = VNull ∨ doc = VUndefined →
  or doc (VObject ∅) = VObject ∅
  ∧ ∃ cfg, readKibanaConfig fs env = Ok cfg
      ∧ cfg = cliEsCredentials env ∪ defaults
      ∧ (∀ key var s, (key, var) ∈ credentialVars → env !! var = Some s → s ≠ "" →
                      cfg !! key = Some (VString s))
      ∧ (∀ key,
           (∀ var, (key, var) ∈ credentialVars →
                   env !! var = None ∨ env !! var = Some "") →
           cfg !! key = defaults !! key)
      ∧ cfg !! "xpack.apm.indices.transaction"
        = Some (VString "traces-apm*,apm-*,traces-*.otel-*")
      ∧ cfg !! "xpack.apm.indices.metric"
        = Some (VString "metrics-apm*,apm-*,metrics-*.otel-*")
      ∧ cfg !! "xpack.apm.indices.error"
        = Some (VString "logs-apm*,apm-*,logs-*.otel-*")
      ∧ cfg !! "xpack.apm.indices.span"
        = Some (VString "traces-apm*,apm-*,traces-*.otel-*")
      ∧ cfg !! "xpack.apm.indices.onboarding" = Some (VString "apm-*")
      ∧ (env !! "ELASTICSEARCH_HOST" = None ∨ env !! "ELASTICSEARCH_HOST" = Some "" →
         cfg !! "elasticsearch.hosts" = Some (VString "http://localhost:9200")).
Proof.
  intros Hread Hload Hdoc.
  assert (Hor : or doc (VObject ∅) = VObject ∅) by (by destruct Hdoc as [->| ->]).
  split; [done|].
  exists (cliEsCredentials env ∪ defaults). split.
  { rewrite (readKibanaConfig_loaded fs env content doc) by done.
    rewrite Hor. simpl. by rewrite (left_id_L ∅ (∪)). }
  split; [done|].
  assert (Hunset : ∀ key,
            (∀ var, (key, var) ∈ credentialVars →
                    env !! var = None ∨ env !! var = Some "") →
            (cliEsCredentials env ∪ defaults) !! key = defaults !! key).
  { intros key Hkey. apply lookup_union_r.
    destruct (decide (key = "elasticsearch.hosts")) as [->|Hhosts].
    { apply (cliEsCredentials_unset env _ "ELASTICSEARCH_HOST");
        [|apply Hkey]; unfold credentialVars; rewrite !elem_of_cons; auto. }
    destruct (decide (key = "elasticsearch.password")) as [->|Hpassword].
    { apply (cliEsCredentials_unset env _ "ELASTICSEARCH_PASSWORD");
        [|apply Hkey]; unfold credentialVars; rewrite !elem_of_cons; auto. }
    destruct (decide (key = "elasticsearch.username")) as [->|Husername].
    { apply (cliEsCredentials_unset env _ "ELASTICSEARCH_USERNAME");
        [|apply Hkey]; unfold credentialVars; rewrite !elem_of_cons; auto. }
    rewrite cliEsCredentials_lookup. by repeat case_decide. }
  assert (Hprefix : ∀ key var, (key, var) ∈ credentialVars →
                               String.prefix "elasticsearch." key = true).
  { intros key var. unfold credentialVars. rewrite !elem_of_cons, elem_of_nil.
    intros [Hin|[Hin|[Hin|[]]]]; simplify_eq; reflexivity. }
  split; [|split; [exact Hunset|]].
  - intros key var s Hin Hs Hne.
    by rewrite lookup_union, (cliEsCredentials_set env key var s), union_Some_l.
  - repeat split;
      try (rewrite Hunset;
           [reflexivity | intros var Hin; by apply Hprefix in Hin]).
    intros Hhost. rewrite Hunset; [reflexivity|].
    intros var. unfold credentialVars. rewrite !elem_of_cons, elem_of_nil.
    intros [Hin|[Hin|[Hin|[]]]]; simplify_eq. exact Hhost.
Qed.

End ConfigProperties.

(** ** The loader on sample inputs *)

Section ConfigExamples.
Import Js Exn Config Samples.

Local Abbreviation run := (Config.readKibanaConfig join module_file load).

Local Ltac evaluated := vm_compute; reflexivity.
Local Ltac listed := unfold credentialVars; repeat constructor.

(** With both files on disk the dev host is returned; with only kibana.yml
    on disk the production host is. *)
Lemma readKibanaConfig_dev_before_prod_witness :
  (∃ cfg, run both_files ∅ = Ok cfg
     ∧ cfg !! "elasticsearch.hosts" = Some (VString "http://dev:9200"))
  ∧ (∃ cfg, run prod_only ∅ = Ok cfg
     ∧ cfg !! "elasticsearch.hosts" = Some (VString "http://prod:9200")).
Proof.
  split.
  - destruct (readKibanaConfig_dev_before_prod join module_file load both_files ∅)
      as (_ & _ & Hboth & _).
    destruct (Hboth "elasticsearch.hosts: http://dev:9200"
                (File "elasticsearch.hosts: http://prod:9200")
                (VObject {[ "elasticsearch.hosts" := VString "http://dev:9200" ]}))
      as (cfg & Hcfg & _ & Hvalues); [evaluated..|].
    exists cfg. split; [exact Hcfg|]. apply Hvalues; evaluated.
  - destruct (readKibanaConfig_dev_before_prod join module_file load prod_only ∅)
      as (_ & _ & _ & Hfallback).
    destruct (Hfallback "elasticsearch.hosts: http://prod:9200"
                (VObject {[ "elasticsearch.hosts" := VString "http://prod:9200" ]}))
      as (cfg & Hcfg & Hvalues); [evaluated..|].
    exists cfg. split; [exact Hcfg|]. apply Hvalues; evaluated.
Defined.

(** ELASTICSEARCH_HOST set to the empty string: the loader returns the
    default host, not the variable's value. *)
Lemma blank_env_var_keeps_default :
  blank_host_env !! "ELASTICSEARCH_HOST" = Some ""
  ∧ ∃ cfg, run empty_prod blank_host_env = Ok cfg
      ∧ cfg !! "elasticsearch.hosts" = Some (VString "http://localhost:9200")
      ∧ cfg !! "elasticsearch.hosts" ≠ Some (VString "").
Proof.
  split; [evaluated|].
  eexists. split; [evaluated|]. split; [evaluated|].
  vm_compute. discriminate.
Qed.

Lemma nonempty_env_var_overrides_witness :
  ∃ cfg, run both_files host_env = Ok cfg
    ∧ cfg !! "elasticsearch.hosts" = Some (VString "http://cli:9200").
Proof.
  apply (nonempty_env_var_overrides join module_file load both_files host_env
           "elasticsearch.hosts: http://dev:9200"
           (VObject {[ "elasticsearch.hosts" := VString "http://dev:9200" ]})
           "elasticsearch.hosts" "ELASTICSEARCH_HOST" "http://cli:9200");
    [evaluated | evaluated | listed | evaluated | discriminate].
Defined.

Lemma defaults_yaml_env_precedence_witness :
  ∃ cfg, run span_only host_env = Ok cfg
    ∧ cfg !! "xpack.apm.indices.onboarding" = Some (VString "apm-*")
    ∧ cfg !! "xpack.apm.indices.span" = Some (VString "spans-*")
    ∧ cfg !! "elasticsearch.hosts" = Some (VString "http://cli:9200").
Proof.
  destruct (defaults_yaml_env_precedence join module_file load span_only host_env
              "xpack.apm.indices.span: spans-*"
              (VObject {[ "xpack.apm.indices.span" := VString "spans-*" ]}))
    as (cfg & Hcfg & _ & Hprecedence & Hdefault & _); [evaluated..|].
  exists cfg. split; [exact Hcfg|]. split; [|split].
  - rewrite Hdefault; evaluated.
  - rewrite Hprecedence; evaluated.
  - rewrite Hprecedence; evaluated.
Defined.

Lemma malformed_yaml_propagates_witness :
  run broken_prod ∅
    = Throw (YAMLException "unexpected end of the stream within a flow mapping")
  ∧ ∀ cfg, run broken_prod ∅ ≠ Ok cfg.
Proof.
  apply (malformed_yaml_propagates join module_file load broken_prod ∅ "{");
    evaluated.
Defined.

Lemma env_touches_credential_keys_only_witness :
  ∃ cfg base, run span_only host_env = Ok cfg
    ∧ run span_only ∅ = Ok base
    ∧ cfg !! "xpack.apm.indices.span" = base !! "xpack.apm.indices.span"
    ∧ cfg !! "server.port" = base !! "server.port".
Proof.
  destruct (env_touches_credential_keys_only join module_file load span_only host_env
              "xpack.apm.indices.span: spans-*"
              (VObject {[ "xpack.apm.indices.span" := VString "spans-*" ]}))
    as (cfg & base & Hcfg & Hbase & _ & Hframe); [evaluated..|].
  exists cfg, base. split; [exact Hcfg|]. split; [exact Hbase|].
  split; apply Hframe; unfold credentialVars; simpl;
    rewrite !elem_of_cons, elem_of_nil; intros [?|[?|[?|[]]]]; discriminate.
Defined.

Lemma empty_env_var_is_absent_witness :
  run empty_prod blank_host_env
    = run empty_prod (delete "ELASTICSEARCH_HOST" blank_host_env)
  ∧ ∃ cfg, run empty_prod blank_host_env = Ok cfg
      ∧ cfg !! "elasticsearch.hosts" = Some (VString "http://localhost:9200").
Proof.
  destruct (empty_env_var_is_absent join module_file load empty_prod blank_host_env
              "elasticsearch.hosts" "ELASTICSEARCH_HOST")
    as (Hsame & Hkeeps); [listed | evaluated |].
  split; [exact Hsame|].
  destruct (Hkeeps "" VUndefined) as (cfg & Hcfg & Hkey); [evaluated..|].
  exists cfg. split; [exact Hcfg|]. rewrite Hkey. evaluated.
Defined.

Lemma null_document_yields_defaults_witness :
  or VUndefined (VObject ∅) = VObject ∅
  ∧ ∃ cfg, run empty_prod host_env = Ok cfg
      ∧ cfg !! "elasticsearch.hosts" = Some (VString "http://cli:9200")
      ∧ cfg !! "xpack.apm.indices.onboarding" = Some (VString "apm-*").
Proof.
  destruct (null_document_yields_defaults join module_file load empty_prod host_env
              "" VUndefined)
    as (Hempty & cfg & Hcfg & _ & Hset & _ & _ & _ & _ & _ & Honboarding & _);
    [evaluated | evaluated | by right |].
  split; [exact Hempty|]. exists cfg. split; [exact Hcfg|]. split; [|exact Honboarding].
  apply (Hset "elasticsearch.hosts" "ELASTICSEARCH_HOST" "http://cli:9200");
    [listed | evaluated | discriminate].
Defined.

End ConfigExamples.

(** * Properties of the theme hook *)

Section ThemeProperties.
Import Theme.

Lemma foldl_store (notifications : list CoreTheme) (stored : option CoreTheme) :
  foldl (λ _ value, Some value) stored notifications
  = match last notifications with Some value => Some value | None => stored end.
Proof.
  induction notifications as [|value notifications _] using rev_ind; [done|].
  by rewrite foldl_app, last_snoc.
Qed.












End ThemeProperties.

(** * Properties of the chart panel *)

Section ChartProperties.
Import Chart.

Lemma actions_nonempty i h :
  actions i h ≠ [] ↔ canEditVisualizationOnTheFly i = true ∨ onEditVisualization i = true.
Proof.
  unfold actions, canSaveVisualization.
  destruct (canEditVisualizationOnTheFly i), (onEditVisualization i),
    (showWriteControls i); simpl; naive_solver.
Qed.

Lemma renderedActions_Some i h buttons :
  renderedActions (render i h) = Some buttons ↔
  chartVisible i = true ∧ actions i h ≠ [] ∧ buttons = actions i h.
Proof.
  unfold render.
  destruct (chartVisible i), (renderCustomChartToggleActions i); simpl;
    try naive_solver;
    destruct (actions i h) eqn:Hactions; simpl; naive_solver.
Qed.

(** A visible data-view chart with no edit callback has no action to offer,
    and no chart-actions group is rendered although [chartVisible] holds. *)
Lemma visible_chart_without_actions :
  chartVisible Samples.dataview_visible = true
  ∧ ∀ h, actions Samples.dataview_visible h = []
         ∧ renderedActions (render Samples.dataview_visible h) = None.
Proof. split; [reflexivity|]. intros h. split; reflexivity. Qed.

(** C3 (amended): in every render pass the chart-actions button group is
    absent whenever [chartVisible] is false, and it is rendered exactly when
    [chartVisible] is true and at least one action exists, that is, when the
    visualization can be edited on the fly or the host supplied an
    edit-visualization callback; its buttons are then the [actions] list. *)
Theorem chart_actions_group_rendered_iff i h :
  (chartVisible i = false → renderedActions (render i h) = None)
  ∧ (is_Some (renderedActions (render i h)) ↔
     chartVisible i = true
     ∧ (canEditVisualizationOnTheFly i = true ∨ onEditVisualization i = true))
  ∧ (∀ buttons, renderedActions (render i h) = Some buttons → buttons = actions i h).
Proof.
  split; [|split].
  - intros Hhidden.
    destruct (renderedActions (render i h)) as [buttons|] eqn:Hgroup; [|done].
    apply renderedActions_Some in Hgroup as (Hvisible & _). congruence.
  - rewrite <- actions_nonempty. split.
    + intros [buttons Hgroup]. apply renderedActions_Some in Hgroup. naive_solver.
    + intros [Hvisible Hany]. exists (actions i h). by apply renderedActions_Some.
  - intros buttons Hgroup. by apply renderedActions_Some in Hgroup as (_ & _ & ->).
Qed.

Lemma chart_actions_group_rendered_iff_witness :
  renderedActions (view (mount Samples.esql_hidden)) = None
  ∧ is_Some (renderedActions (view (mount Samples.esql_visible))).
Proof.
  split.
  - apply (chart_actions_group_rendered_iff Samples.esql_hidden). reflexivity.
  - apply (chart_actions_group_rendered_iff Samples.esql_visible).
    split; [reflexivity | left; reflexivity].
Defined.

(** ** The flyout and the effect that closes it *)

Lemma settled_depsConsistent i h : settled i h → depsConsistent h.
Proof. intros [Hdeps Hopen] visible flyout. rewrite Hdeps. naive_solver. Qed.

Lemma depsConsistent_setIsFlyoutVisible b h :
  depsConsistent h → depsConsistent (setIsFlyoutVisible b h).
Proof. done. Qed.

Lemma depsConsistent_setIsSaveModalVisible b h :
  depsConsistent h → depsConsistent (setIsSaveModalVisible b h).
Proof. done. Qed.

(** An update cycle ends settled. *)
Lemma flush_settled i h : depsConsistent h → settled i (flush i h).
Proof.
  unfold depsConsistent, settled, flush, commit, setIsFlyoutVisible.
  destruct h as [save flyout deps]. destruct deps as [[[] []]|];
    destruct (chartVisible i), flyout; simpl; intros Hdeps;
    repeat (case_bool_decide; simpl in *); simplify_eq; naive_solver.
Qed.

Lemma flush_settled_mount i :
  settled i (flush i {| isSaveModalVisible := false;
                        isFlyoutVisible := false;
                        effectDeps := None |}).
Proof. apply flush_settled. by intros ??. Qed.

(** An update cycle never opens the flyout. *)
Lemma flush_never_opens i h :
  isFlyoutVisible (flush i h) = true → isFlyoutVisible h = true.
Proof.
  unfold flush, commit, setIsFlyoutVisible.
  destruct h as [save flyout deps]; destruct (chartVisible i), flyout; simpl;
    repeat (case_bool_decide; simpl in *); done.
Qed.

(** An update cycle over an invisible chart leaves the flyout closed. *)
Lemma flush_closes i h :
  depsConsistent h → chartVisible i = false → isFlyoutVisible (flush i h) = false.
Proof.
  intros Hdeps Hhidden. destruct (flush_settled i h Hdeps) as [_ Hopen].
  destruct (isFlyoutVisible (flush i h)); [|done].
  rewrite Hhidden in Hopen. symmetry. by apply Hopen.
Qed.

Lemma offers_edit_flyout s disabled :
  offers s (unifiedHistogramEditFlyoutVisualization disabled) = true →
  chartVisible (inputs s) = true ∧ canEditVisualizationOnTheFly (inputs s) = true.
Proof.
  unfold offers, view.
  destruct (renderedActions _) as [buttons|] eqn:Hgroup; [|done].
  apply renderedActions_Some in Hgroup as (Hvisible & _ & ->).
  intros Hoffer. split; [done|]. revert Hoffer. unfold actions, canSaveVisualization.
  destruct (canEditVisualizationOnTheFly (inputs s)); [done|].
  by destruct (onEditVisualization (inputs s)).
Qed.

Lemma rendersConfigPanel_open i h :
  rendersConfigPanel (render i h) = true → isFlyoutVisible h = true.
Proof.
  unfold render.
  destruct (renderCustomChartToggleActions i && negb (chartVisible i)); simpl; [done|].
  by destruct (isFlyoutVisible h).
Qed.

Lemma step_settled s e s' :
  settled (inputs s) (hooks s) → step s e = Some s' → settled (inputs s') (hooks s').
Proof.
  intros Hs Hstep. pose proof (settled_depsConsistent _ _ Hs) as Hdeps.
  destruct e as [i|[disabled| |]| |b]; simpl in Hstep;
    repeat case_match; simplify_eq; simpl; try done;
    by apply flush_settled.
Qed.

Lemma reachable_settled s : reachable s → settled (inputs s) (hooks s).
Proof.
  induction 1 as [i|s e s' _ IH Hstep].
  - apply flush_settled_mount.
  - by apply (step_settled s e s').
Qed.

(** After an update cycle a further render pass changes nothing: its effect
    is skipped, so two passes are all a cycle needs. *)
Lemma flush_quiescent i h : commit i (flush i h) = flush i h.
Proof.
  unfold flush, commit, setIsFlyoutVisible.
  destruct h as [save flyout deps]. destruct deps as [[[] []]|];
    destruct (chartVisible i), flyout; simpl;
    repeat (case_bool_decide; simpl in *); simplify_eq; done.
Qed.

(** The render pass in which the chart has just become invisible still sees
    the flyout state of the previous cycle and renders the config panel; it
    is the effect following that pass which closes the flyout. *)
Lemma render_pass_before_effect :
  ∃ editing, Samples.esql_editing = Some editing
    ∧ chartVisible Samples.esql_hidden = false
    ∧ rendersConfigPanel (render Samples.esql_hidden (hooks editing)) = true
    ∧ isFlyoutVisible (commit Samples.esql_hidden (hooks editing)) = false.
Proof. eexists. repeat split; reflexivity. Qed.

(** C10: in every state the panel reaches (between update cycles) an open
    flyout implies a visible chart, and the config panel is rendered only
    over a visible chart; the only event that opens a closed flyout is a
    click on the enabled on-the-fly edit button, which is offered only while
    [chartVisible] holds; and an update in which [chartVisible] is false ends
    with the flyout closed by the effect. *)
Theorem flyout_open_only_over_visible_chart s :
  reachable s →
  (isFlyoutVisible (hooks s) = true → chartVisible (inputs s) = true)
  ∧ (rendersConfigPanel (view s) = true → chartVisible (inputs s) = true)
  ∧ (∀ e s', step s e = Some s' →
       isFlyoutVisible (hooks s) = false → isFlyoutVisible (hooks s') = true →
       e = Click (unifiedHistogramEditFlyoutVisualization false)
       ∧ chartVisible (inputs s) = true
       ∧ canEditVisualizationOnTheFly (inputs s) = true)
  ∧ (∀ i s', step s (Rerender i) = Some s' →
       chartVisible i = false → isFlyoutVisible (hooks s') = false).
Proof.
  intros Hreach. pose proof (reachable_settled s Hreach) as Hsettled.
  destruct Hsettled as [Hdeps Hopen].
  split; [exact Hopen|]. split; [|split].
  - intros Hpanel. apply Hopen. by apply rendersConfigPanel_open in Hpanel.
  - intros e s' Hstep Hclosed Hopened.
    destruct e as [i|[disabled| |]| |b]; simpl in Hstep.
    + injection Hstep as <-. simpl in Hopened.
      apply flush_never_opens in Hopened. congruence.
    + destruct (offers s _) eqn:Hoffer; [|done]. destruct disabled; [done|].
      apply offers_edit_flyout in Hoffer. by destruct Hoffer.
    + destruct (offers s _); [|done]. injection Hstep as <-. congruence.
    + destruct (offers s _); [|done]. injection Hstep as <-. simpl in Hopened.
      apply flush_never_opens in Hopened. simpl in Hopened. congruence.
    + destruct (rendersSaveModal _); [|done]. injection Hstep as <-.
      simpl in Hopened. apply flush_never_opens in Hopened.
      simpl in Hopened. congruence.
    + destruct (rendersConfigPanel _) eqn:Hpanel; [|done].
      apply rendersConfigPanel_open in Hpanel. congruence.
  - intros i s' Hstep Hhidden. injection Hstep as <-. simpl.
    apply flush_closes; [|done].
    apply (settled_depsConsistent (inputs s)). by split.
Qed.

(** The ES|QL sample: the edit click opens the flyout over a visible chart,
    and hiding the chart closes it again. *)
Lemma flyout_open_only_over_visible_chart_witness :
  ∃ editing, Samples.esql_editing = Some editing
    ∧ isFlyoutVisible (hooks editing) = true
    ∧ chartVisible (inputs editing) = true
    ∧ ∀ s', step editing (Rerender Samples.esql_hidden) = Some s' →
            isFlyoutVisible (hooks s') = false.
Proof.
  eexists. split; [reflexivity|].
  match goal with |- isFlyoutVisible (hooks ?s) = true ∧ _ =>
    destruct (flyout_open_only_over_visible_chart s) as (Hopen & _ & _ & Hcloses)
  end.
  - apply (reachable_step (mount Samples.esql_visible)
             (Click (unifiedHistogramEditFlyoutVisualization false)));
      [apply reachable_mount | reflexivity].
  - split; [reflexivity|]. split; [apply Hopen; reflexivity|].
    intros s' Hstep. apply (Hcloses Samples.esql_hidden s' Hstep). reflexivity.
Defined.

End ChartProperties.

(** * Further properties of the config loader *)

Section CredentialFacts.
Import Js Exn Config.

Lemma credentialVars_key key var :
  (key, var) ∈ credentialVars ↔
  (key = "elasticsearch.username" ∧ var = "ELASTICSEARCH_USERNAME")
  ∨ (key = "elasticsearch.password" ∧ var = "ELASTICSEARCH_PASSWORD")
  ∨ (key = "elasticsearch.hosts" ∧ var = "ELASTICSEARCH_HOST").
Proof.
  unfold credentialVars. rewrite !elem_of_cons, elem_of_nil. naive_solver.
Qed.

(** Exactly the set, non-empty variables show up among the credentials. *)
Lemma cliEsCredentials_Some env key v :
  cliEsCredentials env !! key = Some v ↔
  ∃ var s, (key, var) ∈ credentialVars ∧ env !! var = Some s ∧ s ≠ "" ∧ v = VString s.
Proof.
  split.
  - intros Hv.
    assert (Hkey : ∃ var, (key, var) ∈ credentialVars).
    { rewrite cliEsCredentials_lookup in Hv.
      repeat case_decide; subst; try done;
        eexists; apply credentialVars_key; naive_solver. }
    destruct Hkey as [var Hin].
    destruct (env !! var) as [s|] eqn:Hs.
    + destruct (decide (s = "")) as [->|Hne].
      * rewrite (cliEsCredentials_unset env key var) in Hv by auto. done.
      * rewrite (cliEsCredentials_set env key var s) in Hv by done.
        injection Hv as <-. eauto 10.
    + rewrite (cliEsCredentials_unset env key var) in Hv by auto. done.
  - intros (var & s & Hin & Hs & Hne & ->). by apply (cliEsCredentials_set env key var).
Qed.

(** The credentials depend on the three variables only. *)
Lemma cliEsCredentials_ext env env' :
  (∀ key var, (key, var) ∈ credentialVars → env !! var = env' !! var) →
  cliEsCredentials env = cliEsCredentials env'.
Proof.
  intros Hsame. apply map_eq. intros key. rewrite !cliEsCredentials_lookup.
  unfold process_env.
  rewrite <- (Hsame "elasticsearch.hosts" "ELASTICSEARCH_HOST")
    by (apply credentialVars_key; naive_solver).
  rewrite <- (Hsame "elasticsearch.password" "ELASTICSEARCH_PASSWORD")
    by (apply credentialVars_key; naive_solver).
  rewrite <- (Hsame "elasticsearch.username" "ELASTICSEARCH_USERNAME")
    by (apply credentialVars_key; naive_solver).
  reflexivity.
Qed.

Lemma defaults_dom key : is_Some (defaults !! key) ↔ key ∈ defaultedKeys.
Proof.
  split; [|apply defaults_defined].
  unfold defaults, defaultedKeys. rewrite !elem_of_cons, elem_of_nil.
  intros [v Hv]. repeat (rewrite lookup_insert in Hv; case_decide; [naive_solver|]).
  by rewrite lookup_empty in Hv.
Qed.

End CredentialFacts.

Section ConfigFurther.
Import Js Exn Config.

Variable path_join : string → string → string.
Variable filename : string.
Variable yaml_load : string → Result JsValue.

Local Abbreviation readKibanaConfig := (Config.readKibanaConfig path_join filename yaml_load).
Local Abbreviation configPath := (Config.configPath path_join filename).
Local Abbreviation kibanaDevConfig := (Config.kibanaDevConfig path_join filename).
Local Abbreviation kibanaConfig := (Config.kibanaConfig path_join filename).

(** X1: when neither kibana.dev.yml nor kibana.yml exists, the loader throws
    the file-not-found error of the production path, whatever the
    environment holds. *)
Theorem missing_files_throw_for_production_path fs env :
  fs !! kibanaDevConfig = None →
  fs !! kibanaConfig = None →
  readKibanaConfig fs env = Throw (ENOENT kibanaConfig).
Proof.
  intros Hdev Hprod. unfold Config.readKibanaConfig.
  rewrite (configPath_prod _ _ _ Hdev). unfold readFileSync. by rewrite Hprod.
Qed.

(** X2: the fallback is taken only for a missing dev file.  A dev path that
    exists but is a directory, or a dev file that js-yaml rejects, makes the
    loader throw, and the production file is not consulted. *)
Theorem unusable_dev_file_is_not_bypassed fs env :
  (fs !! kibanaDevConfig = Some Directory →
   readKibanaConfig fs env = Throw (EISDIR kibanaDevConfig))
  ∧ (∀ content e,
       fs !! kibanaDevConfig = Some (File content) →
       yaml_load content = Throw e →
       readKibanaConfig fs env = Throw e).
Proof.
  split.
  - intros Hdev. unfold Config.readKibanaConfig.
    rewrite configPath_dev by eauto. unfold readFileSync. by rewrite Hdev.
  - intros content e Hdev Hload. unfold Config.readKibanaConfig.
    rewrite configPath_dev by eauto. unfold readFileSync. rewrite Hdev.
    simpl. by rewrite Hload.
Qed.

(** X3: two environments that agree on ELASTICSEARCH_USERNAME,
    ELASTICSEARCH_PASSWORD and ELASTICSEARCH_HOST give the same answer, be it
    a mapping or an exception: no other variable is looked at. *)
Theorem other_env_vars_are_ignored fs env env' :
  (∀ key var, (key, var) ∈ credentialVars → env !! var = env' !! var) →
  readKibanaConfig fs env = readKibanaConfig fs env'.
Proof.
  intros Hsame. unfold Config.readKibanaConfig.
  by rewrite (cliEsCredentials_ext env env' Hsame).
Qed.

(** X4: a document that is a bare scalar other than a non-empty string (a
    number, a boolean, a timestamp, the empty string, null) raises no error
    and contributes no key: the result is the defaults overlaid with the
    environment overrides. *)
Theorem scalar_document_contributes_nothing fs env content doc :
  readFileSync fs (configPath fs) = Ok content →
  yaml_load content = Ok doc →
  match doc with
  | VUndefined | VNull | VBool _ | VNumber _ | VDate _ => True
  | VString s => s = ""
  | VArray _ | VObject _ => False
  end →
  readKibanaConfig fs env = Ok (cliEsCredentials env ∪ defaults).
Proof.
  intros Hread Hload Hscalar.
  rewrite (readKibanaConfig_loaded _ _ _ fs env content doc) by done.
  assert (Hnone : ownEnumerable (or doc (VObject ∅)) = ∅).
  { unfold or. destruct doc as [| |b|n|s|ms|xs|props]; try done.
    - by destruct b.
    - by destruct (truthy (VNumber n)).
    - by subst. }
  by rewrite Hnone, (left_id_L ∅ (∪)).
Qed.

(** X5: the keys of the returned mapping are exactly the six defaulted keys,
    the own properties of the loaded document, and the credential keys whose
    variable is set to a non-empty string. *)
Theorem returned_keys fs env content doc :
  readFileSync fs (configPath fs) = Ok content →
  yaml_load content = Ok doc →
  ∃ cfg, readKibanaConfig fs env = Ok cfg
    ∧ ∀ key, is_Some (cfg !! key) ↔
        key ∈ defaultedKeys
        ∨ is_Some (ownEnumerable (or doc (VObject ∅)) !! key)
        ∨ ∃ var s, (key, var) ∈ credentialVars ∧ env !! var = Some s ∧ s ≠ "".
Proof.
  intros Hread Hload.
  eexists. split; [by apply readKibanaConfig_loaded with (content := content)|].
  intros key. rewrite merged_lookup, <- defaults_dom. split.
  - destruct (cliEsCredentials env !! key) as [v|] eqn:Hcli.
    + apply cliEsCredentials_Some in Hcli as (var & s & ? & ? & ? & _).
      intros _. right. right. eauto.
    + destruct (ownEnumerable _ !! key); [intros _; right; left; eauto|].
      intros Hdefault. by left.
  - intros [Hdefault|[Hdoc|(var & s & Hin & Hs & Hne)]].
    + destruct (cliEsCredentials env !! key); [eauto|].
      destruct (ownEnumerable _ !! key); [eauto|done].
    + destruct (cliEsCredentials env !! key); [eauto|].
      destruct Hdoc as [v ->]. eauto.
    + rewrite (cliEsCredentials_set env key var s) by done. eauto.
Qed.

(** X6: user name and password have no built-in default: when the document
    does not define such a key and its variable is unset or empty, the
    returned mapping has no entry for it. *)
Theorem credentials_have_no_default fs env content doc key var :
  readFileSync fs (configPath fs) = Ok content →
  yaml_load content = Ok doc →
  (key, var) ∈ credentialVars →
  key ≠ "elasticsearch.hosts" →
  ownEnumerable (or doc (VObject ∅)) !! key = None →
  env !! var = None ∨ env !! var = Some "" →
  ∃ cfg, readKibanaConfig fs env = Ok cfg ∧ cfg !! key = None.
Proof.
  intros Hread Hload Hin Hkey Hdoc Henv.
  eexists. split; [by apply readKibanaConfig_loaded with (content := content)|].
  rewrite merged_lookup, Hdoc, (cliEsCredentials_unset env key var) by done.
  apply credentialVars_key in Hin. by destruct Hin as [[-> _]|[[-> _]|[-> _]]].
Qed.

(** X7: the returned mapping departs from the YAML-over-defaults merge only
    at a credential key whose variable is set to a non-empty string, and
    there it holds that string. *)
Theorem departures_come_from_set_variables fs env content doc key :
  readFileSync fs (configPath fs) = Ok content →
  yaml_load content = Ok doc →
  ∃ cfg, readKibanaConfig fs env = Ok cfg
    ∧ (cfg !! key ≠ spread defaults (or doc (VObject ∅)) !! key →
       ∃ var s, (key, var) ∈ credentialVars ∧ env !! var = Some s ∧ s ≠ ""
                ∧ cfg !! key = Some (VString s)).
Proof.
  intros Hread Hload.
  eexists. split; [by apply readKibanaConfig_loaded with (content := content)|].
  unfold spread. rewrite lookup_union.
  destruct (cliEsCredentials env !! key) as [v|] eqn:Hcli.
  - apply cliEsCredentials_Some in Hcli as (var & s & ? & ? & ? & ->).
    intros _. exists var, s. by rewrite union_Some_l.
  - rewrite (left_id_L None (∪)). intros Hdeparts. exfalso. by apply Hdeparts.
Qed.

(** X8: the loader returns a mapping exactly when the chosen path names a
    file and js-yaml accepts its content; reading and parsing are its only
    sources of failure. *)
Theorem succeeds_iff_read_and_parsed fs env :
  (∃ cfg, readKibanaConfig fs env = Ok cfg) ↔
  ∃ content doc, fs !! configPath fs = Some (File content) ∧ yaml_load content = Ok doc.
Proof.
  unfold Config.readKibanaConfig, readFileSync. split.
  - intros [cfg Hcfg].
    destruct (fs !! configPath fs) as [[content|]|]; simpl in Hcfg; try done.
    destruct (yaml_load content) as [doc|] eqn:Hload; simpl in Hcfg; [|done].
    eauto.
  - intros (content & doc & -> & Hload). simpl. rewrite Hload. simpl. eauto.
Qed.

End ConfigFurther.


(** ** The loader's further properties on sample inputs *)

Section ConfigFurtherExamples.
Import Js Exn Config Samples.

Local Abbreviation run := (Config.readKibanaConfig join module_file load).

Local Ltac evaluated := vm_compute; reflexivity.

Lemma missing_files_throw_for_production_path_witness :
  run ∅ host_env = Throw (ENOENT prod_path).
Proof.
  apply (missing_files_throw_for_production_path join module_file load ∅ host_env);
    evaluated.
Defined.

Lemma unusable_dev_file_is_not_bypassed_witness :
  run broken_dev ∅
    = Throw (YAMLException "unexpected end of the stream within a flow mapping").
Proof.
  destruct (unusable_dev_file_is_not_bypassed join module_file load broken_dev ∅)
    as (_ & Hrejected).
  apply (Hrejected "{"); evaluated.
Defined.

Lemma other_env_vars_are_ignored_witness :
  run span_only user_env = run span_only (delete "HOME" user_env).
Proof.
  apply (other_env_vars_are_ignored join module_file load span_only).
  intros key var Hin. apply credentialVars_key in Hin.
  destruct Hin as [[_ ->]|[[_ ->]|[_ ->]]]; evaluated.
Defined.

Lemma scalar_document_contributes_nothing_witness :
  Config.readKibanaConfig join module_file (λ _, Ok number_document) prod_only host_env
    = Ok (cliEsCredentials host_env ∪ defaults).
Proof.
  apply (scalar_document_contributes_nothing join module_file (λ _, Ok number_document)
           prod_only host_env "elasticsearch.hosts: http://prod:9200" number_document);
    [evaluated | reflexivity | exact I].
Defined.

Lemma returned_keys_witness :
  ∃ cfg, run span_only user_env = Ok cfg
    ∧ is_Some (cfg !! "xpack.apm.indices.span")
    ∧ is_Some (cfg !! "elasticsearch.username").
Proof.
  destruct (returned_keys join module_file load span_only user_env
              "xpack.apm.indices.span: spans-*"
              (VObject {[ "xpack.apm.indices.span" := VString "spans-*" ]}))
    as (cfg & Hcfg & Hkeys); [evaluated..|].
  exists cfg. split; [exact Hcfg|]. split; apply Hkeys.
  - right. left. exists (VString "spans-*"). evaluated.
  - right. right. exists "ELASTICSEARCH_USERNAME", "elastic".
    split; [apply credentialVars_key; left; split; reflexivity|].
    split; [evaluated | discriminate].
Defined.

Lemma credentials_have_no_default_witness :
  ∃ cfg, run span_only host_env = Ok cfg ∧ cfg !! "elasticsearch.username" = None.
Proof.
  apply (credentials_have_no_default join module_file load span_only host_env
           "xpack.apm.indices.span: spans-*"
           (VObject {[ "xpack.apm.indices.span" := VString "spans-*" ]})
           "elasticsearch.username" "ELASTICSEARCH_USERNAME");
    [evaluated | evaluated | apply credentialVars_key; left; split; reflexivity
    | discriminate | evaluated | left; evaluated].
Defined.

Lemma departures_come_from_set_variables_witness :
  ∃ cfg, run span_only user_env = Ok cfg
    ∧ (cfg !! "elasticsearch.hosts"
         ≠ spread defaults
             (or (VObject {[ "xpack.apm.indices.span" := VString "spans-*" ]}) (VObject ∅))
             !! "elasticsearch.hosts" →
       ∃ var s, ("elasticsearch.hosts", var) ∈ credentialVars
                ∧ user_env !! var = Some s ∧ s ≠ ""
                ∧ cfg !! "elasticsearch.hosts" = Some (VString s)).
Proof.
  apply (departures_come_from_set_variables join module_file load span_only user_env
           "xpack.apm.indices.span: spans-*"
           (VObject {[ "xpack.apm.indices.span" := VString "spans-*" ]})
           "elasticsearch.hosts"); evaluated.
Defined.

Lemma succeeds_iff_read_and_parsed_witness :
  ∃ cfg, run prod_only ∅ = Ok cfg.
Proof.
  apply (succeeds_iff_read_and_parsed join module_file load prod_only ∅).
  exists "elasticsearch.hosts: http://prod:9200",
    (VObject {[ "elasticsearch.hosts" := VString "http://prod:9200" ]}).
  split; evaluated.
Defined.

End ConfigFurtherExamples.

(** * Documents that are lists or bare strings *)

Section IndexedDocuments.
Import Js Exn Config.

(** Decimal numerals begin with a digit. *)
Lemma pretty_N_go_head x s :
  (0 < x)%N ∨ (∃ c rest, s = String c rest ∧ (48 ≤ Ascii.N_of_ascii c ≤ 57)%N) →
  ∃ c rest, pretty_N_go x s = String c rest ∧ (48 ≤ Ascii.N_of_ascii c ≤ 57)%N.
Proof.
  revert s. induction (N.lt_wf_0 x) as [x _ IH]. intros s Hs.
  assert (x = 0 ∨ 0 < x)%N as [->|Hpos] by lia.
  - rewrite pretty_N_go_0. destruct Hs as [?|?]; [lia|done].
  - rewrite pretty_N_go_step by done. apply IH; [by apply N.div_lt|].
    right. eexists _, _. split; [done|].
    unfold pretty_N_char. repeat case_match; vm_compute; split; discriminate.
Qed.

Lemma pretty_nat_head (i : nat) :
  ∃ c rest, pretty i = String c rest ∧ (48 ≤ Ascii.N_of_ascii c ≤ 57)%N.
Proof.
  unfold pretty, pretty_nat, pretty, pretty_N. case_decide.
  - eexists _, _. split; [done|]. vm_compute. split; discriminate.
  - apply pretty_N_go_head. left. lia.
Qed.

Lemma indexed_lookup_at {A} (f : A → JsValue) (name : nat → string) xs i :
  Inj (=) (=) name →
  (list_to_map (imap (λ j x, (name j, f x)) xs) : gmap string JsValue) !! name i
  = f <$> xs !! i.
Proof.
  revert name i. induction xs as [|x xs IH]; intros name i Hinj; [done|].
  rewrite imap_cons, list_to_map_cons. destruct i as [|i]; simpl.
  - by rewrite lookup_insert_eq.
  - rewrite lookup_insert_ne by (intros Heq; by apply Hinj in Heq).
    apply (IH (name ∘ S) i). intros a b Hab. apply Hinj in Hab. lia.
Qed.

(** Element [i] of an indexed value sits under the decimal numeral of [i]. *)
Lemma indexed_lookup {A} (f : A → JsValue) xs (i : nat) :
  indexed f xs !! pretty i = f <$> xs !! i.
Proof. apply (indexed_lookup_at f pretty). apply _. Qed.

(** An indexed value has no other property names. *)
Lemma indexed_lookup_Some {A} (f : A → JsValue) xs key v :
  indexed f xs !! key = Some v → ∃ i : nat, key = pretty i.
Proof.
  intros Hkey. apply elem_of_list_to_map_2 in Hkey.
  apply elem_of_lookup_imap in Hkey as (i & x & [= -> _] & _). eauto.
Qed.

Lemma numeral_not_defaulted (i : nat) : pretty i ∉ defaultedKeys.
Proof.
  destruct (pretty_nat_head i) as (c & rest & Hi & Hdigit). rewrite Hi.
  unfold defaultedKeys. rewrite !elem_of_cons, elem_of_nil.
  intros Hin.
  repeat destruct Hin as [[= -> _]|Hin]; try done;
    vm_compute in Hdigit; destruct Hdigit as [Hlow Hhigh]; by apply Hhigh.
Qed.

Lemma numeral_not_credential (i : nat) : pretty i ∉ credentialVars.*1.
Proof.
  destruct (pretty_nat_head i) as (c & rest & Hi & Hdigit). rewrite Hi.
  unfold credentialVars. simpl. rewrite !elem_of_cons, elem_of_nil.
  intros Hin.
  repeat destruct Hin as [[= -> _]|Hin]; try done;
    vm_compute in Hdigit; destruct Hdigit as [Hlow Hhigh]; by apply Hhigh.
Qed.

Variable path_join : string → string → string.
Variable filename : string.
Variable yaml_load : string → Result JsValue.

Local Abbreviation readKibanaConfig := (Config.readKibanaConfig path_join filename yaml_load).
Local Abbreviation configPath := (Config.configPath path_join filename).

(** X21: a document that is a list, or a non-empty bare string, is not
    rejected: the returned mapping holds its elements (for a string, its
    UTF-16 code units) under the decimal numerals "0", "1", ..., and every
    defaulted key keeps the value the environment and the defaults give
    it. *)
Theorem list_or_text_document_is_spread fs env content doc items :
  readFileSync fs (configPath fs) = Ok content →
  yaml_load content = Ok doc →
  doc = VArray items
  ∨ (∃ s, doc = VString s ∧ s ≠ ""
          ∧ items = VString <$> codeUnits (String.list_ascii_of_string s)) →
  ∃ cfg, readKibanaConfig fs env = Ok cfg
    ∧ (∀ i : nat, cfg !! pretty i = items !! i)
    ∧ (∀ key, key ∈ defaultedKeys →
              cfg !! key = (cliEsCredentials env ∪ defaults) !! key).
Proof.
  intros Hread Hload Hdoc.
  eexists. split; [by apply (readKibanaConfig_loaded _ _ _ fs env content doc)|].
  assert (Hown : ∃ (A : Type) (f : A → JsValue) (xs : list A),
             ownEnumerable (or doc (VObject ∅)) = indexed f xs
             ∧ items = f <$> xs).
  { destruct Hdoc as [->|(s & -> & Hs & ->)].
    - exists JsValue, id, items. by rewrite list_fmap_id.
    - exists string, VString, (codeUnits (String.list_ascii_of_string s)).
      unfold or. simpl. by rewrite (proj2 (String.eqb_neq s "")). }
  destruct Hown as (A & f & xs & -> & ->). split.
  - intros i. rewrite merged_lookup.
    rewrite (cliEsCredentials_other path_join filename yaml_load env (pretty i))
      by apply numeral_not_credential.
    rewrite indexed_lookup, list_lookup_fmap.
    destruct (xs !! i) as [x|]; [reflexivity|].
    change (defaults !! pretty i = None).
    destruct (defaults !! pretty i) as [v|] eqn:Hdefault; [|done].
    destruct (numeral_not_defaulted i). apply defaults_dom. eauto.
  - intros key Hkey. rewrite merged_lookup, lookup_union.
    destruct (cliEsCredentials env !! key); [by rewrite union_Some_l|].
    rewrite (left_id_L None (∪)).
    destruct (indexed f xs !! key) as [v|] eqn:Hindexed; [|done].
    apply indexed_lookup_Some in Hindexed as [i ->].
    by destruct (numeral_not_defaulted i).
Qed.

End IndexedDocuments.

Section IndexedDocumentExamples.
Import Js Exn Config Samples.

Lemma list_or_text_document_is_spread_witness :
  (∃ cfg,
     Config.readKibanaConfig join module_file
       (λ _, Ok (VArray [VString "a"; VString "b"])) prod_only ∅ = Ok cfg
     ∧ cfg !! "1" = Some (VString "b")
     ∧ cfg !! "xpack.apm.indices.onboarding" = Some (VString "apm-*"))
  ∧ (∃ cfg,
       Config.readKibanaConfig join module_file
         (λ _, Ok (VString "é€")) prod_only ∅ = Ok cfg
       ∧ cfg !! "0" = Some (VString "é")
       ∧ cfg !! "1" = Some (VString "€")
       ∧ cfg !! "2" = None).
Proof.
  split.
  - destruct (list_or_text_document_is_spread join module_file
                (λ _, Ok (VArray [VString "a"; VString "b"])) prod_only ∅
                "elasticsearch.hosts: http://prod:9200"
                (VArray [VString "a"; VString "b"]) [VString "a"; VString "b"])
      as (cfg & Hcfg & Hitems & Hdefaults);
      [vm_compute; reflexivity | reflexivity | by left |].
    exists cfg. split; [exact Hcfg|]. split.
    + apply (Hitems 1).
    + rewrite Hdefaults; [vm_compute; reflexivity|].
      unfold defaultedKeys. rewrite !elem_of_cons. auto 10.
  - destruct (list_or_text_document_is_spread join module_file
                (λ _, Ok (VString "é€")) prod_only ∅
                "elasticsearch.hosts: http://prod:9200"
                (VString "é€") [VString "é"; VString "€"])
      as (cfg & Hcfg & Hitems & _);
      [vm_compute; reflexivity | reflexivity | |].
    { right. exists "é€". split; [reflexivity|]. split; [discriminate|].
      vm_compute. reflexivity. }
    exists cfg. split; [exact Hcfg|]. split; [apply (Hitems 0)|].
    split; [apply (Hitems 1) | apply (Hitems 2)].
Defined.

End IndexedDocumentExamples.

(** * Further properties of the theme hook *)

Section ThemeFurther.
Import Theme.

(** X9: a re-render with the theme prop it was last rendered with does not
    subscribe again: the layout effect delivers nothing and the hook slots,
    the stored value among them, stay as they were. *)
Theorem same_theme_rerender_keeps_subscription theme h :
  (commit theme (commit theme h).2).1.2 = []
  ∧ (commit theme (commit theme h).2).2 = (commit theme h).2.
Proof.
  assert (Hfirst : ∃ obs value made,
            (commit theme h).2
            = {| memo := Some (theme, obs); cell := Some value; observed := Some obs;
                 subscription := Some obs; created := made |}).
  { unfold commit, useIsDarkTheme, themeObservable, useObservable, layoutEffect.
    destruct h as [memo0 cell0 observed0 subscription0 created0]. simpl.
    destruct memo0 as [[deps obs]|]; [case_bool_decide|];
      try destruct (theme ≫= theme_stream) as [stream|]; simpl;
      case_bool_decide as Hsame; simpl; rewrite ?foldl_store;
      try (destruct (last _)); subst; eauto. }
  destruct Hfirst as (obs & value & made & ->).
  unfold commit, useIsDarkTheme, themeObservable, useObservable, layoutEffect. simpl.
  rewrite bool_decide_eq_true_2 by done. simpl.
  by rewrite bool_decide_eq_true_2.
Qed.

End ThemeFurther.

(** * Further properties of the chart panel *)

Section ChartFurther.
Import Chart.

Lemma flush_keeps_save_modal i h :
  isSaveModalVisible (flush i h) = isSaveModalVisible h.
Proof.
  unfold flush, commit, setIsFlyoutVisible.
  destruct h as [save flyout deps]; destruct (chartVisible i), flyout; simpl;
    repeat (case_bool_decide; simpl in *); done.
Qed.

Lemma flush_visible_keeps_flyout i h :
  chartVisible i = true → isFlyoutVisible (flush i h) = isFlyoutVisible h.
Proof.
  intros Hvisible. unfold flush, commit, setIsFlyoutVisible. rewrite Hvisible.
  destruct h as [save flyout deps]; simpl;
    repeat (case_bool_decide; simpl in *); done.
Qed.

(** A settled cycle in which nothing the effect watches has changed leaves
    the hooks alone. *)
Lemma flush_settled_id i h : settled i h → flush i h = h.
Proof.
  intros [Hdeps _]. unfold flush, commit.
  destruct h as [save flyout deps]. simpl in *. subst deps.
  rewrite (bool_decide_eq_true_2 (Some _ = Some _)) by done.
  by rewrite bool_decide_eq_true_2.
Qed.

Lemma canEditVisualizationOnTheFly_true i :
  canEditVisualizationOnTheFly i = true →
  chartVisible i = true
  ∧ isPlainRecord i = true
  ∧ is_Some (visContext i)
  ∧ is_Some (lensVisServiceCurrentSuggestionContext i).
Proof.
  unfold canEditVisualizationOnTheFly, canCustomizeVisualization, currentSuggestion.
  intros Hedit. apply andb_true_iff in Hedit as [Hcustom Hvisible].
  split; [done|].
  apply andb_true_iff in Hcustom as [Hcustom _].
  apply andb_true_iff in Hcustom as [Hplain Hsuggestion].
  split; [done|]. split.
  - unfold chartVisible in Hvisible. destruct (visContext i); [eauto|].
    by rewrite andb_false_r in Hvisible.
  - destruct (lensVisServiceCurrentSuggestionContext i); [eauto|].
    apply bool_decide_eq_true in Hsuggestion. by destruct Hsuggestion.
Qed.

(** X10: while [chartVisible] is false the panel is either the bare hidden
    placeholder (custom toggle actions supplied) or a toolbar with just the
    'Show chart' toggle: no time-interval or breakdown selector, no action
    buttons, no histogram and no save modal. *)
Theorem invisible_chart_renders_toggle_only i h :
  chartVisible i = false →
  render i h =
    if renderCustomChartToggleActions i then unifiedHistogramChartPanelHidden
    else unifiedHistogramCollapsablePanel
           {| toggleArea := ToggleChartButton "Show chart" "transitionTopIn";
              timeIntervalSelector := false;
              breakdownFieldSelector := false;
              chartActionsGroup := None;
              histogramSection := None;
              lensSaveModal := false;
              chartConfigPanel :=
                isFlyoutVisible h
                && bool_decide (is_Some (visContext i))
                && bool_decide (is_Some (lensVisServiceCurrentSuggestionContext i)) |}.
Proof.
  intros Hhidden.
  unfold render, canSaveVisualization, canEditVisualizationOnTheFly.
  rewrite Hhidden, andb_false_r. by destruct (renderCustomChartToggleActions i).
Qed.

Lemma invisible_chart_renders_toggle_only_witness :
  renderedActions (render Samples.esql_hidden (hooks (mount Samples.esql_hidden))) = None.
Proof.
  rewrite (invisible_chart_renders_toggle_only Samples.esql_hidden); reflexivity.
Defined.

(** X11: the action list has one of four shapes: empty, the Lens-app edit
    button alone, the on-the-fly edit button alone, or the on-the-fly edit
    button followed by the save button.  The two edit buttons never appear
    together, the save button never appears without the on-the-fly edit
    button or without write controls, and the on-the-fly edit button is
    disabled exactly while the flyout is open. *)
Theorem actions_shapes i h :
  (actions i h = []
   ∧ canEditVisualizationOnTheFly i = false ∧ onEditVisualization i = false)
  ∨ (actions i h = [unifiedHistogramEditVisualization]
     ∧ canEditVisualizationOnTheFly i = false ∧ onEditVisualization i = true)
  ∨ (actions i h = [unifiedHistogramEditFlyoutVisualization (isFlyoutVisible h)]
     ∧ canEditVisualizationOnTheFly i = true ∧ showWriteControls i = false)
  ∨ (actions i h = [unifiedHistogramEditFlyoutVisualization (isFlyoutVisible h);
                    unifiedHistogramSaveVisualization]
     ∧ canEditVisualizationOnTheFly i = true ∧ showWriteControls i = true).
Proof.
  unfold actions, canSaveVisualization.
  destruct (canEditVisualizationOnTheFly i), (onEditVisualization i),
    (showWriteControls i); simpl; auto 10.
Qed.

(** X12: the save modal is rendered only over a visible chart in plain-record
    mode, with write controls granted and the modal flag raised. *)
Theorem save_modal_needs_write_controls i h :
  rendersSaveModal (render i h) = true →
  showWriteControls i = true
  ∧ chartVisible i = true
  ∧ isPlainRecord i = true
  ∧ isSaveModalVisible h = true.
Proof.
  unfold render. destruct (renderCustomChartToggleActions i && negb (chartVisible i));
    simpl; [done|].
  intros Hmodal. apply andb_true_iff in Hmodal as [Hmodal _].
  apply andb_true_iff in Hmodal as [Hsave Hflag].
  unfold canSaveVisualization in Hsave.
  apply andb_true_iff in Hsave as [Hedit Hwrite].
  apply canEditVisualizationOnTheFly_true in Hedit as (? & ? & _). done.
Qed.

Lemma save_modal_needs_write_controls_witness :
  ∃ saving, step (mount Samples.esql_visible) (Click unifiedHistogramSaveVisualization)
            = Some saving
    ∧ showWriteControls (inputs saving) = true
    ∧ isSaveModalVisible (hooks saving) = true.
Proof.
  eexists. split; [reflexivity|].
  match goal with |- showWriteControls (inputs ?s) = true ∧ _ =>
    destruct (save_modal_needs_write_controls (inputs s) (hooks s))
      as (Hwrite & _ & _ & Hflag); [reflexivity|]
  end.
  split; [exact Hwrite | exact Hflag].
Defined.

(** X13: the save-modal flag is set by a click on the save button, cleared
    by the modal's onClose, and left alone by every other event; a re-render
    that hides the chart does not reset it. *)
Theorem save_modal_flag_changes s e s' :
  step s e = Some s' →
  isSaveModalVisible (hooks s') =
    match e with
    | Click unifiedHistogramSaveVisualization => true
    | SaveModalClose => false
    | _ => isSaveModalVisible (hooks s)
    end.
Proof.
  intros Hstep.
  destruct e as [i|[disabled| |]| |b]; simpl in Hstep;
    repeat case_match; simplify_eq; simpl; try done;
    by rewrite flush_keeps_save_modal.
Qed.

Lemma save_modal_flag_changes_witness :
  ∃ saving hidden,
    step (mount Samples.esql_visible) (Click unifiedHistogramSaveVisualization)
      = Some saving
    ∧ step saving (Rerender Samples.esql_hidden) = Some hidden
    ∧ isSaveModalVisible (hooks saving) = true
    ∧ isSaveModalVisible (hooks hidden) = true.
Proof.
  eexists. eexists. split; [reflexivity|]. split; [reflexivity|].
  split.
  - apply (save_modal_flag_changes (mount Samples.esql_visible)
             (Click unifiedHistogramSaveVisualization)). reflexivity.
  - match goal with |- isSaveModalVisible (hooks ?hidden) = true =>
      rewrite (save_modal_flag_changes _ (Rerender Samples.esql_hidden) hidden eq_refl)
    end. reflexivity.
Defined.

(** X14: from a reachable state, a re-render leaves the flyout open exactly
    when it was open and the chart is still visible; whether the
    visualization can still be edited on the fly (plain-record mode, current
    suggestion) plays no part. *)
Theorem rerender_flyout s i s' :
  reachable s →
  step s (Rerender i) = Some s' →
  isFlyoutVisible (hooks s') = isFlyoutVisible (hooks s) && chartVisible i.
Proof.
  intros Hreach Hstep. injection Hstep as <-. simpl.
  pose proof (reachable_settled s Hreach) as Hsettled.
  destruct (chartVisible i) eqn:Hvisible.
  - rewrite andb_true_r. by apply flush_visible_keeps_flyout.
  - rewrite andb_false_r. apply flush_closes; [|done].
    by apply (settled_depsConsistent (inputs s)).
Qed.

Lemma rerender_flyout_witness :
  ∃ editing dataview,
    Samples.esql_editing = Some editing
    ∧ step editing (Rerender Samples.dataview_visible) = Some dataview
    ∧ canEditVisualizationOnTheFly (inputs dataview) = false
    ∧ isFlyoutVisible (hooks dataview) = true.
Proof.
  eexists. eexists. split; [reflexivity|]. split; [reflexivity|].
  split; [reflexivity|].
  match goal with |- isFlyoutVisible (hooks ?dataview) = true =>
    rewrite (rerender_flyout
               {| inputs := Samples.esql_visible;
                  hooks := {| isSaveModalVisible := false;
                              isFlyoutVisible := true;
                              effectDeps := Some (true, true) |} |}
               Samples.dataview_visible dataview)
  end; [reflexivity| |reflexivity].
  apply (reachable_step (mount Samples.esql_visible)
           (Click (unifiedHistogramEditFlyoutVisualization false)));
    [apply reachable_mount | reflexivity].
Defined.

(** X15: while the flyout is open no click on the on-the-fly edit button is
    accepted: the button, if rendered at all, is rendered disabled. *)
Theorem edit_click_refused_while_open s disabled :
  isFlyoutVisible (hooks s) = true →
  step s (Click (unifiedHistogramEditFlyoutVisualization disabled)) = None.
Proof.
  intros Hopen. simpl. destruct disabled; [by rewrite andb_false_r|].
  rewrite andb_true_r.
  assert (Hoffer : offers s (unifiedHistogramEditFlyoutVisualization false) = false);
    [|by rewrite Hoffer].
  unfold offers, view.
  destruct (renderedActions _) as [buttons|] eqn:Hgroup; [|done].
  apply renderedActions_Some in Hgroup as (_ & _ & ->).
  unfold actions. rewrite Hopen.
  by destruct (canEditVisualizationOnTheFly (inputs s)),
       (onEditVisualization (inputs s)), (canSaveVisualization (inputs s)).
Qed.

End ChartFurther.

Section ChartCycles.
Import Chart.

Lemma edit_click_refused_while_open_witness :
  ∃ editing, Samples.esql_editing = Some editing
    ∧ step editing (Click (unifiedHistogramEditFlyoutVisualization false)) = None
    ∧ step editing (Click (unifiedHistogramEditFlyoutVisualization true)) = None.
Proof.
  eexists. split; [reflexivity|].
  split; apply edit_click_refused_while_open; reflexivity.
Defined.

(** X16: a freshly mounted panel has both the save modal and the flyout
    closed, whatever its first props are, and its first committed tree shows
    neither the save modal nor the config panel. *)
Theorem mount_starts_closed i :
  hooks (mount i) = {| isSaveModalVisible := false;
                       isFlyoutVisible := false;
                       effectDeps := Some (chartVisible i, false) |}
  ∧ rendersSaveModal (view (mount i)) = false
  ∧ rendersConfigPanel (view (mount i)) = false.
Proof.
  assert (Hhooks : hooks (mount i)
                   = {| isSaveModalVisible := false;
                        isFlyoutVisible := false;
                        effectDeps := Some (chartVisible i, false) |}).
  { unfold mount, flush, commit. simpl. by rewrite andb_false_r. }
  split; [exact Hhooks|].
  unfold view. rewrite Hhooks. unfold render. simpl.
  destruct (renderCustomChartToggleActions i && negb (chartVisible i)); simpl; [done|].
  by rewrite andb_false_r.
Qed.

(** X17: an update cycle is idempotent: running it again on its own result
    with the same inputs changes nothing, so the state-setting effect cannot
    keep re-triggering itself. *)
Theorem flush_idempotent i h : flush i (flush i h) = flush i h.
Proof.
  unfold flush at 1. rewrite flush_quiescent. by rewrite bool_decide_eq_true_2.
Qed.

(** X18: from a reachable state with the flyout closed and on-the-fly editing
    possible, the edit click is accepted, opens the flyout, renders the config
    panel and disables the edit button; the panel's close request is then
    accepted and leads back to the very state the click started from. *)
Theorem edit_then_close_round_trip s :
  reachable s →
  canEditVisualizationOnTheFly (inputs s) = true →
  isFlyoutVisible (hooks s) = false →
  ∃ opened,
    step s (Click (unifiedHistogramEditFlyoutVisualization false)) = Some opened
    ∧ isFlyoutVisible (hooks opened) = true
    ∧ rendersConfigPanel (view opened) = true
    ∧ offers opened (unifiedHistogramEditFlyoutVisualization true) = true
    ∧ step opened (ConfigPanelSetFlyout false) = Some s.
Proof.
  intros Hreach Hedit Hclosed.
  destruct (reachable_settled s Hreach) as [Hdeps _].
  destruct (canEditVisualizationOnTheFly_true _ Hedit)
    as (Hvisible & _ & Hvis & Hctx).
  destruct s as [i [save flyout deps]]. simpl in *. subst flyout deps.
  rewrite Hvisible.
  assert (Hrender : ∀ h, renderedActions (render i h) = Some (actions i h)).
  { intros h. apply renderedActions_Some. split; [done|]. split; [|done].
    apply actions_nonempty. by left. }
  assert (Hactions : ∀ save' flyout' deps', existsb
            (actionButton_eqb (unifiedHistogramEditFlyoutVisualization flyout'))
            (actions i {| isSaveModalVisible := save';
                          isFlyoutVisible := flyout';
                          effectDeps := deps' |}) = true).
  { intros save' flyout' deps'. unfold actions. rewrite Hedit. simpl.
    by rewrite bool_decide_eq_true_2. }
  set (opened := {| inputs := i;
                    hooks := {| isSaveModalVisible := save;
                                isFlyoutVisible := true;
                                effectDeps := Some (true, true) |} |}).
  assert (Hpanel : rendersConfigPanel (view opened) = true).
  { unfold view, render. simpl. rewrite Hvisible, andb_false_r. simpl.
    by rewrite !bool_decide_eq_true_2. }
  exists opened. split.
  - unfold step, offers, view. simpl. rewrite Hrender.
    rewrite Hactions. simpl. unfold update, flush, commit. simpl. by rewrite Hvisible.
  - split; [done|]. split; [done|]. split.
    + unfold offers, view. simpl. rewrite Hrender.
      apply Hactions.
    + unfold step. rewrite Hpanel.
      unfold update, flush, commit. simpl. by rewrite Hvisible.
Qed.

Lemma edit_then_close_round_trip_witness :
  ∃ opened,
    step (mount Samples.esql_visible)
      (Click (unifiedHistogramEditFlyoutVisualization false)) = Some opened
    ∧ step opened (ConfigPanelSetFlyout false) = Some (mount Samples.esql_visible).
Proof.
  destruct (edit_then_close_round_trip (mount Samples.esql_visible))
    as (opened & Hopen & _ & _ & _ & Hclose);
    [apply reachable_mount | reflexivity | reflexivity |].
  exists opened. split; [exact Hopen | exact Hclose].
Defined.

(** X19: from a reachable state where saving is possible and the save modal
    is closed, the save click is accepted and renders the modal; the modal's
    onClose is then accepted and leads back to the state the click started
    from. *)
Theorem save_then_close_round_trip s :
  reachable s →
  canSaveVisualization (inputs s) = true →
  isSaveModalVisible (hooks s) = false →
  ∃ saving,
    step s (Click unifiedHistogramSaveVisualization) = Some saving
    ∧ rendersSaveModal (view saving) = true
    ∧ step saving SaveModalClose = Some s.
Proof.
  intros Hreach Hsave Hclosed.
  pose proof (reachable_settled s Hreach) as Hsettled.
  assert (Hedit : canEditVisualizationOnTheFly (inputs s) = true).
  { unfold canSaveVisualization in Hsave. by apply andb_true_iff in Hsave as [? _]. }
  destruct (canEditVisualizationOnTheFly_true _ Hedit) as (Hvisible & _ & _ & _).
  destruct s as [i [save flyout deps]]. simpl in *. subst save.
  set (raised := {| isSaveModalVisible := true;
                    isFlyoutVisible := flyout;
                    effectDeps := deps |}).
  assert (Hraised : flush i raised = raised).
  { apply flush_settled_id. destruct Hsettled as [Hdeps Hopen]. by split. }
  assert (Hmodal : rendersSaveModal (render i raised) = true).
  { unfold render. rewrite Hvisible, andb_false_r. simpl. rewrite Hsave. simpl.
    unfold chartVisible in Hvisible. destruct (visContext i); [|by rewrite andb_false_r in Hvisible].
    by apply andb_true_iff in Hvisible as [_ ?]. }
  exists {| inputs := i; hooks := raised |}. split.
  - unfold step, offers, view. simpl.
    assert (Hrender : ∀ h, renderedActions (render i h) = Some (actions i h)).
    { intros h. apply renderedActions_Some. split; [done|]. split; [|done].
      apply actions_nonempty. by left. }
    rewrite Hrender.
    assert (Hbutton : ∀ h, existsb (actionButton_eqb unifiedHistogramSaveVisualization)
                             (actions i h) = true).
    { intros h. unfold actions. rewrite Hedit, Hsave. reflexivity. }
    rewrite Hbutton. unfold update, setIsSaveModalVisible.
    cbn [inputs hooks isSaveModalVisible isFlyoutVisible effectDeps].
    fold raised. by rewrite Hraised.
  - split; [exact Hmodal|].
    unfold step, view. cbn [inputs hooks]. rewrite Hmodal.
    unfold update, setIsSaveModalVisible, raised.
    cbn [inputs hooks isSaveModalVisible isFlyoutVisible effectDeps].
    by rewrite (flush_settled_id i _ Hsettled).
Qed.

Lemma save_then_close_round_trip_witness :
  ∃ saving,
    step (mount Samples.esql_visible) (Click unifiedHistogramSaveVisualization)
      = Some saving
    ∧ step saving SaveModalClose = Some (mount Samples.esql_visible).
Proof.
  destruct (save_then_close_round_trip (mount Samples.esql_visible))
    as (saving & Hsave & _ & Hclose);
    [apply reachable_mount | reflexivity | reflexivity |].
  exists saving. split; [exact Hsave | exact Hclose].
Defined.

(** X20: a tree that shows the time-interval selector belongs to data-view
    mode: it offers neither the on-the-fly edit button nor the save button
    (its only possible action is the Lens-app edit button) and it shows no
    save modal. *)
Theorem time_interval_selector_excludes_on_the_fly_editing i h panel :
  render i h = unifiedHistogramCollapsablePanel panel →
  timeIntervalSelector panel = true →
  isPlainRecord i = false
  ∧ lensSaveModal panel = false
  ∧ ∀ buttons, chartActionsGroup panel = Some buttons →
               buttons = [unifiedHistogramEditVisualization].
Proof.
  unfold render.
  destruct (renderCustomChartToggleActions i && negb (chartVisible i)); [done|].
  intros [= <-]. simpl. intros Hselector.
  apply andb_true_iff in Hselector as [Hselector _].
  apply andb_true_iff in Hselector as [Hvisible Hplain].
  apply negb_true_iff in Hplain.
  assert (Hedit : canEditVisualizationOnTheFly i = false).
  { unfold canEditVisualizationOnTheFly, canCustomizeVisualization. by rewrite Hplain. }
  split; [done|]. split.
  - unfold canSaveVisualization. by rewrite Hedit.
  - intros buttons. unfold actions, canSaveVisualization. rewrite Hedit, Hvisible. simpl.
    destruct (onEditVisualization i); simpl; [|done]. by intros [= <-].
Qed.

Lemma time_interval_selector_excludes_on_the_fly_editing_witness :
  ∃ panel, view (mount Samples.dataview_visible) = unifiedHistogramCollapsablePanel panel
    ∧ timeIntervalSelector panel = true
    ∧ lensSaveModal panel = false.
Proof.
  eexists. split; [reflexivity|]. split; [reflexivity|].
  match goal with |- lensSaveModal ?panel = false =>
    destruct (time_interval_selector_excludes_on_the_fly_editing
                Samples.dataview_visible (hooks (mount Samples.dataview_visible)) panel)
      as (_ & Hmodal & _); [reflexivity | reflexivity | exact Hmodal]
  end.
Defined.

End ChartCycles.
